(** * pyodbc module entry layer (src/pyodbcmodule.cpp)

    A shallow embedding of the module-level functions of pyodbcmodule.cpp:
    [init_locale_info], [AllocateEnv], [mod_connect], [mod_datasources],
    [CreateExceptions], [ErrorCleanup] and the part of [PyInit_pyodbc] that
    drives them.  C globals ([henv], the locale characters, the ten class
    pointers, the interpreter's error indicator) are threaded explicitly.

    What the file does not model: failures of the interpreter's allocator
    inside string and dictionary construction ([PyUnicode_FromString],
    [Unicode::Append], [PyDict_New] in [mod_datasources]), and characters
    above 255 (a Python [str] is a [string] of 8-bit characters here, which
    the 16-bit or wider SQLWCHAR holds unchanged). *)

From Stdlib Require Import ZArith List String Ascii Bool Lia.
From Stdlib Require DecimalString.
Import ListNotations.
Local Open Scope string_scope.
Local Open Scope Z_scope.

(** ** Python values and the error indicator *)

(** The values a caller can hand to the module.  [PyBool] are the two
    singletons [Py_True] and [Py_False]; [PyInstance truth index] is an object
    of any other type: [truth] is what its [__bool__] answers ([None]: it
    raises) and [index] what its [__index__] answers ([None]: the object is
    no integer). *)
Inductive PyObject : Type :=
| Py_None
| PyBool (b : bool)
| PyLong (n : Z)
| PyUnicode (s : string)
| PyInstance (truth : option bool) (index : option Z).

Definition Py_True : PyObject := PyBool true.
Definition Py_False : PyObject := PyBool false.

(** [pooling == Py_True]: pointer identity with the singleton. *)
Definition is_Py_True (o : PyObject) : bool :=
  match o with
  | PyBool true => true
  | _ => false
  end.

Definition PyUnicode_Check (o : PyObject) : bool :=
  match o with
  | PyUnicode _ => true
  | _ => false
  end.

Inductive PyExcType : Type :=
| PyExc_TypeError
| PyExc_RuntimeError.

(** What the error indicator holds: an exception this module raised
    ([PyErr_SetString], [PyErr_Format], [RaiseError]), one left by a C-API
    call on an object, or one built from a native diagnostic record. *)
Inductive PyErr : Type :=
| Raised (ty : PyExcType) (msg : string)
| RaisedBy (api : string) (arg : PyObject)
| RaisedFromHandle (szFunction : string) (diag : string).

(** A C [long] (LP64). *)
Definition LONG_MIN : Z := - 2 ^ 63.
Definition LONG_MAX : Z := 2 ^ 63 - 1.

Definition fits_long (n : Z) : bool := (LONG_MIN <=? n) && (n <=? LONG_MAX).

(** The truth value of an object, when its truth test does not raise. *)
Definition truth_value (o : PyObject) : option bool :=
  match o with
  | Py_None => Some false
  | PyBool b => Some b
  | PyLong n => Some (negb (n =? 0))
  | PyUnicode s => Some (negb (String.eqb s ""))
  | PyInstance truth _ => truth
  end.

(** The integer an object converts to, when it does. *)
Definition long_value (o : PyObject) : option Z :=
  match o with
  | PyBool b => Some (if b then 1 else 0)
  | PyLong n => if fits_long n then Some n else None
  | PyInstance _ (Some n) => if fits_long n then Some n else None
  | _ => None
  end.

(** [PyObject_IsTrue]: 1, 0, or -1 with the error indicator set.  On success
    the indicator is left as it was. *)
Definition PyObject_IsTrue (o : PyObject) (err : option PyErr) : Z * option PyErr :=
  match truth_value o with
  | Some true => (1, err)
  | Some false => (0, err)
  | None => (-1, Some (RaisedBy "PyObject_IsTrue" o))
  end.

(** [PyLong_AsLong]: the value, or -1 with the error indicator set.  On
    success the indicator is left as it was. *)
Definition PyLong_AsLong (o : PyObject) (err : option PyErr) : Z * option PyErr :=
  match long_value o with
  | Some n => (n, err)
  | None => (-1, Some (RaisedBy "PyLong_AsLong" o))
  end.

(** ** Dictionaries

    A [PyDict] keeps its entries in insertion order, which is the order
    [PyDict_Next] walks them in; keys are strings. *)
Definition PyDict (V : Type) : Type := list (string * V).

Fixpoint PyDict_GetItemString {V : Type} (d : PyDict V) (key : string) : option V :=
  match d with
  | [] => None
  | (k, v) :: rest => if String.eqb k key then Some v else PyDict_GetItemString rest key
  end.

(** [PyDict_SetItem]: a key already present keeps its place and takes the new
    value; a new key goes last. *)
Fixpoint PyDict_SetItem {V : Type} (d : PyDict V) (key : string) (value : V) : PyDict V :=
  match d with
  | [] => [(key, value)]
  | (k, v) :: rest =>
      if String.eqb k key then (k, value) :: rest
      else (k, v) :: PyDict_SetItem rest key value
  end.

Definition PyDict_Size {V : Type} (d : PyDict V) : Z := Z.of_nat (List.length d).

(** ** The native driver manager

    Constants of the ODBC headers (sql.h, sqlext.h), which are not part of
    this repository; the values are the ones the ODBC standard fixes. *)
Definition SQLRETURN : Type := Z.
Definition HANDLE : Type := Z.

Definition SQL_NULL_HANDLE : HANDLE := 0.
Definition SQL_SUCCESS : SQLRETURN := 0.
Definition SQL_SUCCESS_WITH_INFO : SQLRETURN := 1.
Definition SQL_NO_DATA : SQLRETURN := 100.
Definition SQL_INVALID_HANDLE : SQLRETURN := -2.
Definition SQL_HANDLE_ENV : Z := 1.
Definition SQL_HANDLE_DBC : Z := 2.
Definition SQL_HANDLE_STMT : Z := 3.
Definition SQL_ATTR_ODBC_VERSION : Z := 200.
Definition SQL_ATTR_CONNECTION_POOLING : Z := 201.
Definition SQL_CP_ONE_PER_HENV : Z := 2.
Definition SQL_OV_ODBC3 : Z := 3.
Definition SQL_FETCH_NEXT : Z := 1.

(** [#define SQL_SUCCEEDED(rc) (((rc)&(~1))==0)] *)
Definition SQL_SUCCEEDED (rc : SQLRETURN) : bool := Z.land rc (Z.lnot 1) =? 0.

(** The calls the module makes into the driver manager, as they are logged. *)
Inductive NativeCall : Type :=
| SQLSetEnvAttr (h : HANDLE) (attribute value : Z)
| SQLAllocHandle (handle_type : Z) (input : HANDLE)
| SQLDataSourcesW (h : HANDLE) (direction : Z)
| SQLGetDiagRec (handle_type : Z) (h : HANDLE).

(** What the driver manager answers.  [dm_SQLDataSourcesW] is the script of
    one enumeration: the status, name and description of each successive
    fetch; once the script is used up the answer is [SQL_NO_DATA]. *)
Record DriverManager : Type := {
  dm_SQLSetEnvAttr : HANDLE -> Z -> Z -> SQLRETURN;
  dm_SQLAllocHandle : Z -> HANDLE -> SQLRETURN * HANDLE;
  dm_SQLDataSourcesW : list (SQLRETURN * string * string);
  dm_SQLGetDiagRec : Z -> HANDLE -> string
}.

(** ** Process-wide state

    [henv] is the global of the same name, [pooling] the attribute of that
    name in the module's namespace ([None]: the attribute was deleted), and
    [native_calls] the calls made so far, oldest first. *)
Record Process : Type := {
  henv : HANDLE;
  pooling : option PyObject;
  native_calls : list NativeCall
}.

Definition call (c : NativeCall) (p : Process) : Process :=
  {| henv := henv p; pooling := pooling p; native_calls := native_calls p ++ [c] |}.

Definition set_henv (h : HANDLE) (p : Process) : Process :=
  {| henv := h; pooling := pooling p; native_calls := native_calls p |}.

(** How a C function of the module ends: it returns, or the process stops in
    [Py_FatalError], or it dereferences a null pointer. *)
Inductive Outcome (A : Type) : Type :=
| Returns (a : A) (p : Process)
| Py_FatalError (msg : string) (p : Process)
| NullDereference (p : Process).

Arguments Returns {A} a p.
Arguments Py_FatalError {A} msg p.
Arguments NullDereference {A} p.

Definition final_process {A : Type} (o : Outcome A) : Process :=
  match o with
  | Returns _ p => p
  | Py_FatalError _ p => p
  | NullDereference p => p
  end.

(** [AllocateEnv].  The [return false] after each [Py_FatalError] is never
    reached, so a return is a return of [true]. *)
Definition AllocateEnv (dm : DriverManager) (p : Process) : Outcome unit :=
  match pooling p with
  | None => NullDereference p
  | Some pooling_attr =>
      let bPooling := is_Py_True pooling_attr in
      let p1 :=
        if bPooling
        then call (SQLSetEnvAttr SQL_NULL_HANDLE SQL_ATTR_CONNECTION_POOLING SQL_CP_ONE_PER_HENV) p
        else p in
      if bPooling &&
         negb (SQL_SUCCEEDED (dm_SQLSetEnvAttr dm SQL_NULL_HANDLE
                                SQL_ATTR_CONNECTION_POOLING SQL_CP_ONE_PER_HENV))
      then Py_FatalError "Unable to set SQL_ATTR_CONNECTION_POOLING attribute." p1
      else
        let (ret, h) := dm_SQLAllocHandle dm SQL_HANDLE_ENV SQL_NULL_HANDLE in
        let p2 := set_henv h (call (SQLAllocHandle SQL_HANDLE_ENV SQL_NULL_HANDLE) p1) in
        if negb (SQL_SUCCEEDED ret)
        then Py_FatalError "Can't initialize module pyodbc.  SQLAllocEnv failed." p2
        else
          let p3 := call (SQLSetEnvAttr h SQL_ATTR_ODBC_VERSION SQL_OV_ODBC3) p2 in
          if negb (SQL_SUCCEEDED (dm_SQLSetEnvAttr dm h SQL_ATTR_ODBC_VERSION SQL_OV_ODBC3))
          then Py_FatalError "Unable to set SQL_ATTR_ODBC_VERSION attribute." p3
          else Returns tt p3
  end.

(** The guard both entry points put before their work:
    [if (henv == SQL_NULL_HANDLE) { if (!AllocateEnv()) return 0; }]. *)
Definition ensure_environment (dm : DriverManager) (p : Process) : Outcome unit :=
  if henv p =? SQL_NULL_HANDLE then AllocateEnv dm p else Returns tt p.

(** ** [mod_connect] *)

(** [keywordmaps]: DB API names and the ODBC names they stand for (the
    third field of the C table is a cache of the second as an object). *)
Definition keywordmaps : list (string * string) :=
  [ ("user", "uid");
    ("password", "pwd");
    ("host", "server") ].

(** The [for] loop over [keywordmaps]: the first entry whose [oldname]
    compares equal replaces the key. *)
Fixpoint map_keyword (maps : list (string * string)) (key : string) : string :=
  match maps with
  | [] => key
  | (oldname, newname) :: rest =>
      if String.eqb key oldname then newname else map_keyword rest key
  end.

(** Modelled from the spec: the [Unicode] string builder of wrapper.h, which
    is not among the sources.  The builder holds the text assembled so far
    (separators are inserted at append time):
    [Append] adds text at the end and [Size] is the number of characters. *)
Definition Unicode_Append (cstring piece : string) : string := cstring ++ piece.
Definition Unicode_Size (cstring : string) : Z := Z.of_nat (String.length cstring).

(** The locals of [mod_connect] that the keyword loop updates, with the
    interpreter's error indicator. *)
Record ConnectLocals : Type := {
  cstring : string;
  fAutoCommit : Z;
  timeout : Z;
  err : option PyErr
}.

Inductive LoopFlow : Type :=
| Continue (l : ConnectLocals)
| Return0 (e : PyErr).

(** [RaiseError(PyExc_TypeError, "The value for keyword '%S' is not a string'", key)] *)
Definition not_a_string (key : string) : PyErr :=
  Raised PyExc_TypeError ("The value for keyword '" ++ key ++ "' is not a string'").

(** One turn of [while (PyDict_Next(kwargs, &pos, &key, &value))]. *)
Definition connect_keyword (l : ConnectLocals) (key : string) (value : PyObject) : LoopFlow :=
  if String.eqb key "autocommit" then
    let (r, e) := PyObject_IsTrue value (err l) in
    Continue {| cstring := cstring l; fAutoCommit := r; timeout := timeout l; err := e |}
  else if String.eqb key "timeout" then
    let (r, e) := PyLong_AsLong value (err l) in
    match e with
    | Some pending => Return0 pending
    | None => Continue {| cstring := cstring l; fAutoCommit := fAutoCommit l; timeout := r; err := None |}
    end
  else
    match value with
    | PyUnicode s =>
        let key := map_keyword keywordmaps key in
        let cs := if Unicode_Size (cstring l) =? 0 then cstring l
                  else Unicode_Append (cstring l) ";" in
        Continue {| cstring := Unicode_Append (Unicode_Append (Unicode_Append cs key) "=") s;
                    fAutoCommit := fAutoCommit l; timeout := timeout l; err := err l |}
    | _ => Return0 (not_a_string key)
    end.

Fixpoint connect_keywords (kwargs : PyDict PyObject) (l : ConnectLocals) : LoopFlow :=
  match kwargs with
  | [] => Continue l
  | (key, value) :: rest =>
      match connect_keyword l key value with
      | Continue l' => connect_keywords rest l'
      | Return0 e => Return0 e
      end
  end.

(** What [mod_connect] hands back: [NULL] is a null pointer that
    [mod_connect] returns itself, with the exception left in the error
    indicator; [Connection_New] is the value of the final call
    [Connection_New(cstring, fAutoCommit != 0, timeout)] (connection.cpp),
    whatever that call returns, recorded with its arguments and the error
    indicator at that moment.  The process that goes with it is the one at
    the moment of the call. *)
Inductive ConnectReturn : Type :=
| NULL (e : PyErr)
| Connection_New (cstring : string) (fAutoCommit : bool) (timeout : Z) (pending : option PyErr).

(** The error indicator when [Connection_New] is called.  [AllocateEnv]
    begins with [PyObject_GetAttrString(pModule, "pooling")], after which no
    exception is pending; when [henv] is there already, [AllocateEnv] is not
    called and nothing between the keyword loop and [Connection_New] touches
    the indicator. *)
Definition indicator_after_environment (p : Process) (e : option PyErr) : option PyErr :=
  if henv p =? SQL_NULL_HANDLE then None else e.

(** The part of [mod_connect] after the keyword loop. *)
Definition connect_finish (dm : DriverManager) (l : ConnectLocals) (p : Process)
  : Outcome ConnectReturn :=
  if Unicode_Size (cstring l) =? 0
  then Returns (NULL (Raised PyExc_TypeError "no connection information was passed")) p
  else
    match ensure_environment dm p with
    | Returns _ p' =>
        Returns (Connection_New (cstring l) (negb (fAutoCommit l =? 0)) (timeout l)
                   (indicator_after_environment p (err l))) p'
    | Py_FatalError msg p' => Py_FatalError msg p'
    | NullDereference p' => NullDereference p'
    end.

(** [mod_connect(self, args, kwargs)].  A null [args] or [kwargs] is the
    empty tuple or dictionary; the error indicator is clear on entry. *)
Definition mod_connect (dm : DriverManager) (args : list PyObject)
    (kwargs : PyDict PyObject) (p : Process) : Outcome ConnectReturn :=
  let size := Z.of_nat (List.length args) in
  if 1 <? size
  then Returns (NULL (Raised PyExc_TypeError "function takes at most 1 non-keyword argument")) p
  else
    let start (cs : string) :=
      match connect_keywords kwargs {| cstring := cs; fAutoCommit := 0; timeout := 0; err := None |} with
      | Return0 e => Returns (NULL e) p
      | Continue l => connect_finish dm l p
      end in
    match args with
    | arg0 :: _ =>
        match arg0 with
        | PyUnicode s => start (Unicode_Append "" s)
        | _ => Returns (NULL (Raised PyExc_TypeError "argument 1 must be a string")) p
        end
    | [] => start ""
    end.

(** ** [mod_datasources] *)

(** Modelled from the spec: [RaiseErrorFromHandle] of errors.cpp, which is
    not among the sources.  It reads the diagnostic record with the
    get-diagnostic call, keyed by handle type and handle (the statement
    handle if there is one, else the connection handle, else the environment
    handle), and raises a [DatabaseError]-family exception that carries the
    diagnostic text and names the native operation that failed. *)
Definition RaiseErrorFromHandle (dm : DriverManager) (szFunction : string)
    (hdbc hstmt : HANDLE) (p : Process) : PyErr * Process :=
  let (handle_type, h) :=
    if negb (hstmt =? SQL_NULL_HANDLE) then (SQL_HANDLE_STMT, hstmt)
    else if negb (hdbc =? SQL_NULL_HANDLE) then (SQL_HANDLE_DBC, hdbc)
    else (SQL_HANDLE_ENV, henv p) in
  (RaisedFromHandle szFunction (dm_SQLGetDiagRec dm handle_type h),
   call (SQLGetDiagRec handle_type h) p).

(** The [for (;;)] loop: every turn calls
    [SQLDataSourcesW(henv, SQL_FETCH_NEXT, ...)]; a status that has not
    succeeded leaves the loop, any other stores the pair and goes on.  The
    value is the last status, the dictionary and the process. *)
Fixpoint fetch_data_sources (script : list (SQLRETURN * string * string))
    (result : PyDict string) (p : Process) : SQLRETURN * PyDict string * Process :=
  let p' := call (SQLDataSourcesW (henv p) SQL_FETCH_NEXT) p in
  match script with
  | [] => (SQL_NO_DATA, result, p')
  | (ret, szDSN, szDesc) :: rest =>
      if negb (SQL_SUCCEEDED ret) then (ret, result, p')
      else fetch_data_sources rest (PyDict_SetItem result szDSN szDesc) p'
  end.

Inductive DataSourcesReturn : Type :=
| DataSourcesNULL (e : PyErr)
| DataSourcesDict (result : PyDict string).

Definition mod_datasources (dm : DriverManager) (p : Process) : Outcome DataSourcesReturn :=
  match ensure_environment dm p with
  | Py_FatalError msg p' => Py_FatalError msg p'
  | NullDereference p' => NullDereference p'
  | Returns _ p1 =>
      let '(ret, result, p2) := fetch_data_sources (dm_SQLDataSourcesW dm) [] p1 in
      if negb (ret =? SQL_NO_DATA)
      then
        let (e, p3) := RaiseErrorFromHandle dm "SQLDataSources" SQL_NULL_HANDLE SQL_NULL_HANDLE p2 in
        Returns (DataSourcesNULL e) p3
      else Returns (DataSourcesDict result) p2
  end.

(** ** [init_locale_info] *)

Record LocaleInfo : Type := {
  chDecimal : ascii;
  chGroupSeparator : ascii;
  chCurrencySymbol : ascii
}.

(** The initializers of the three globals. *)
Definition compiled_in_locale : LocaleInfo :=
  {| chDecimal := "."; chGroupSeparator := ","; chCurrencySymbol := "$" |}.

(** What the interpreter offers: no [locale] module, a [localeconv] that
    raises, or the dictionary [localeconv] returns. *)
Inductive HostLocale : Type :=
| NoLocaleModule
| LocaleconvRaises
| Localeconv (ldict : PyDict PyObject).

(** [value && PyUnicode_Check(value) && PyUnicode_GET_SIZE(value) == 1], and
    then [PyUnicode_AsUnicode(value)[0]]. *)
Definition one_character (value : option PyObject) : option ascii :=
  match value with
  | Some (PyUnicode (String c EmptyString)) => Some c
  | _ => None
  end.

Definition init_locale_info (host : HostLocale) (g : LocaleInfo) : LocaleInfo :=
  match host with
  | NoLocaleModule => g
  | LocaleconvRaises => g
  | Localeconv ldict =>
      let g1 :=
        match one_character (PyDict_GetItemString ldict "decimal_point") with
        | Some c => {| chDecimal := c; chGroupSeparator := chGroupSeparator g;
                       chCurrencySymbol := chCurrencySymbol g |}
        | None => g
        end in
      let g2 :=
        match one_character (PyDict_GetItemString ldict "thousands_sep") with
        | Some c =>
            let sep :=
              if Ascii.eqb c zero
              then (if Ascii.eqb (chDecimal g1) "," then "." else ",")%char
              else c in
            {| chDecimal := chDecimal g1; chGroupSeparator := sep;
               chCurrencySymbol := chCurrencySymbol g1 |}
        | None => g1
        end in
      match one_character (PyDict_GetItemString ldict "currency_symbol") with
      | Some c => {| chDecimal := chDecimal g2; chGroupSeparator := chGroupSeparator g2;
                     chCurrencySymbol := c |}
      | None => g2
      end
  end.

(** ** The exception classes *)

(** The ten global class pointers, in the order they are declared. *)
Inductive ExcName : Type :=
| Error | Warning | InterfaceError | DatabaseError | InternalError
| OperationalError | ProgrammingError | IntegrityError | DataError
| NotSupportedError.

Definition exc_globals : list ExcName :=
  [Error; Warning; InterfaceError; DatabaseError; InternalError;
   OperationalError; ProgrammingError; IntegrityError; DataError;
   NotSupportedError].

Definition ExcName_eqb (a b : ExcName) : bool :=
  match a, b with
  | Error, Error | Warning, Warning | InterfaceError, InterfaceError
  | DatabaseError, DatabaseError | InternalError, InternalError
  | OperationalError, OperationalError | ProgrammingError, ProgrammingError
  | IntegrityError, IntegrityError | DataError, DataError
  | NotSupportedError, NotSupportedError => true
  | _, _ => false
  end.

Definition exc_identifier (n : ExcName) : string :=
  match n with
  | Error => "Error" | Warning => "Warning" | InterfaceError => "InterfaceError"
  | DatabaseError => "DatabaseError" | InternalError => "InternalError"
  | OperationalError => "OperationalError" | ProgrammingError => "ProgrammingError"
  | IntegrityError => "IntegrityError" | DataError => "DataError"
  | NotSupportedError => "NotSupportedError"
  end.

(** The pointer an [ExcInfo] names as the parent: the interpreter's
    [PyExc_Exception] or one of the module's own globals. *)
Inductive ExcParent : Type :=
| PyExc_Exception
| Global (g : ExcName).

(** [struct ExcInfo]; the documentation text [szDoc] is left out. *)
Record ExcInfo : Type := {
  szName : string;
  szFullName : string;
  ppexc : ExcName;
  ppexcParent : ExcParent
}.

(** [#define MAKEEXCINFO(name, parent, doc) { #name, "pyodbc." #name, &name, &parent, doc }] *)
Definition MAKEEXCINFO (name : ExcName) (parent : ExcParent) : ExcInfo :=
  {| szName := exc_identifier name;
     szFullName := "pyodbc." ++ exc_identifier name;
     ppexc := name;
     ppexcParent := parent |}.

Definition aExcInfos : list ExcInfo :=
  [ MAKEEXCINFO Error PyExc_Exception;
    MAKEEXCINFO Warning PyExc_Exception;
    MAKEEXCINFO InterfaceError (Global Error);
    MAKEEXCINFO DatabaseError (Global Error);
    MAKEEXCINFO DataError (Global DatabaseError);
    MAKEEXCINFO OperationalError (Global DatabaseError);
    MAKEEXCINFO IntegrityError (Global DatabaseError);
    MAKEEXCINFO InternalError (Global DatabaseError);
    MAKEEXCINFO ProgrammingError (Global DatabaseError);
    MAKEEXCINFO NotSupportedError (Global DatabaseError) ].

(** A class object: its name and the name of its module, its base ([None]:
    the interpreter's [Exception]; otherwise the address of another class),
    and the number of references this module's code has taken to it and not
    given back or handed over. *)
Record ClassObject : Type := {
  tp_name : string;
  tp_module : string;
  tp_base : option nat;
  ob_refcnt : nat
}.

(** [strrchr(name, '.')] in [PyErr_NewException]: the text before the last
    dot and the text after it; [None] when the name has no dot. *)
Fixpoint split_last_dot (name : string) : option (string * string) :=
  match name with
  | EmptyString => None
  | String c rest =>
      match split_last_dot rest with
      | Some (before, after) => Some (String c before, after)
      | None => if Ascii.eqb c "." then Some (EmptyString, rest) else None
      end
  end.

(** The classes created so far (an address is a position in [heap]), the ten
    global pointers ([None]: null) and the names the module object holds. *)
Record Registry : Type := {
  heap : list ClassObject;
  exc_global : ExcName -> option nat;
  namespace : PyDict nat
}.

Definition set_global (n : ExcName) (v : option nat) (r : Registry) : Registry :=
  {| heap := heap r;
     exc_global := fun m => if ExcName_eqb m n then v else exc_global r m;
     namespace := namespace r |}.

(** [ErrorInit]: every class pointer is set to null. *)
Definition ErrorInit (r : Registry) : Registry :=
  {| heap := heap r; exc_global := fun _ => None; namespace := namespace r |}.

Fixpoint decref_at (a : nat) (h : list ClassObject) : list ClassObject :=
  match h, a with
  | [], _ => []
  | c :: rest, O =>
      {| tp_name := tp_name c; tp_module := tp_module c; tp_base := tp_base c;
         ob_refcnt := Nat.pred (ob_refcnt c) |} :: rest
  | c :: rest, S a' => c :: decref_at a' rest
  end.

Definition Py_XDECREF (o : option nat) (r : Registry) : Registry :=
  match o with
  | None => r
  | Some a => {| heap := decref_at a (heap r); exc_global := exc_global r;
                 namespace := namespace r |}
  end.

(** [ErrorCleanup]: [Py_XDECREF] of each of the ten class pointers (the
    eleventh, [decimal_type], is not part of the registry). *)
Definition ErrorCleanup (r : Registry) : Registry :=
  fold_left (fun r n => Py_XDECREF (exc_global r n) r) exc_globals r.

(** The step of [CreateExceptions] that fails for a class, if any. *)
Inductive CreateFailure : Type :=
| PyDict_New_fails
| PyUnicode_FromString_fails
| PyErr_NewException_fails.

(** One turn of the loop of [CreateExceptions].  [PyErr_NewException] splits
    [szFullName] at its last dot into the module name and the class name
    (and returns null for a name with no dot), and takes [*info.ppexcParent]
    as the base, a null base standing for [Exception]; the new class has one
    reference, [Py_INCREF] adds the module's own, and [PyModule_AddObject]
    hands one over to the module object. *)
Definition create_exception (failure : ExcName -> option CreateFailure)
    (info : ExcInfo) (r : Registry) : bool * Registry :=
  match failure (ppexc info) with
  | Some PyDict_New_fails => (false, r)
  | Some PyUnicode_FromString_fails => (false, r)
  | Some PyErr_NewException_fails => (false, set_global (ppexc info) None r)
  | None =>
      let base :=
        match ppexcParent info with
        | PyExc_Exception => None
        | Global g => exc_global r g
        end in
      let address := List.length (heap r) in
      match split_last_dot (szFullName info) with
      | None => (false, set_global (ppexc info) None r)
      | Some (module_name, class_name) =>
          let class := {| tp_name := class_name; tp_module := module_name;
                          tp_base := base; ob_refcnt := 2 |} in
          (true,
           {| heap := heap r ++ [class];
              exc_global := fun m => if ExcName_eqb m (ppexc info) then Some address
                                     else exc_global r m;
              namespace := PyDict_SetItem (namespace r) (szName info) address |})
      end
  end.

Fixpoint create_exceptions (failure : ExcName -> option CreateFailure)
    (infos : list ExcInfo) (r : Registry) : bool * Registry :=
  match infos with
  | [] => (true, r)
  | info :: rest =>
      let (ok, r') := create_exception failure info r in
      if ok then create_exceptions failure rest r' else (false, r')
  end.

Definition CreateExceptions (failure : ExcName -> option CreateFailure) (r : Registry)
  : bool * Registry :=
  create_exceptions failure aExcInfos r.

(** [issubclass]: [derived] is [base] or reaches it along [tp_base]. *)
Fixpoint is_subclass_fuel (fuel : nat) (h : list ClassObject) (derived base : nat) : bool :=
  if Nat.eqb derived base then true
  else
    match fuel with
    | O => false
    | S fuel' =>
        match nth_error h derived with
        | Some c =>
            match tp_base c with
            | Some parent => is_subclass_fuel fuel' h parent base
            | None => false
            end
        | None => false
        end
    end.

Definition is_a (r : Registry) (derived base : ExcName) : bool :=
  match exc_global r derived, exc_global r base with
  | Some d, Some b => is_subclass_fuel (List.length (heap r)) (heap r) d b
  | _, _ => false
  end.

(** The class a registered class derives from: [Some PyExc_Exception],
    [Some (Global g)] when its base is the class [g] points to, [None] when
    the class does not exist. *)
Definition parent_of (r : Registry) (n : ExcName) : option ExcParent :=
  match exc_global r n with
  | None => None
  | Some a =>
      match nth_error (heap r) a with
      | None => None
      | Some c =>
          match tp_base c with
          | None => Some PyExc_Exception
          | Some b =>
              match filter (fun g => match exc_global r g with
                                     | Some x => Nat.eqb x b
                                     | None => false
                                     end) exc_globals with
              | g :: _ => Some (Global g)
              | [] => None
              end
          end
      end
  end.

(** The number of module classes above a class. *)
Fixpoint depth_fuel (fuel : nat) (h : list ClassObject) (a : nat) : nat :=
  match fuel with
  | O => O
  | S fuel' =>
      match nth_error h a with
      | Some c =>
          match tp_base c with
          | Some parent => S (depth_fuel fuel' h parent)
          | None => O
          end
      | None => O
      end
  end.

Definition depth (r : Registry) (n : ExcName) : option nat :=
  match exc_global r n with
  | Some a => Some (depth_fuel (List.length (heap r)) (heap r) a)
  | None => None
  end.

(** The registry start-up begins with. *)
Definition empty_registry : Registry :=
  {| heap := []; exc_global := fun _ => None; namespace := [] |}.

(** ** [PyInit_pyodbc] *)

(** What start-up finds in the interpreter. *)
Record InitHost : Type := {
  sqlwchar_size_ok : bool;
  types_ready : bool;
  import_types_ok : bool;
  host_locale : HostLocale;
  exc_failure : ExcName -> option CreateFailure;
  error_after_constants : bool
}.

Record Module : Type := {
  registry : Registry;
  locale_info : LocaleInfo;
  module_pooling : option PyObject
}.

(** [PyInit_pyodbc]: [true] when the module object is returned, [false] for
    a null return; with the state start-up leaves behind. *)
Definition PyInit_pyodbc (host : InitHost) : bool * Module :=
  let r0 := ErrorInit empty_registry in
  let m0 := {| registry := r0; locale_info := compiled_in_locale; module_pooling := None |} in
  if negb (sqlwchar_size_ok host) then (false, m0)
  else if negb (types_ready host) then (false, m0)
  else if negb (import_types_ok host) then (false, m0)
  else
    let loc := init_locale_info (host_locale host) compiled_in_locale in
    let (created, r1) := CreateExceptions (exc_failure host) r0 in
    if negb created
    then (false, {| registry := r1; locale_info := loc; module_pooling := None |})
    else
      if error_after_constants host
      then (false, {| registry := ErrorCleanup r1; locale_info := loc;
                      module_pooling := Some Py_True |})
      else (true, {| registry := r1; locale_info := loc; module_pooling := Some Py_True |}).

(** ** [mod_drivers] (Windows builds)

    Status codes of winerror.h, which is not part of this repository. *)
Definition ERROR_SUCCESS : Z := 0.
Definition ERROR_MORE_DATA : Z := 234.
Definition ERROR_NO_MORE_ITEMS : Z := 259.

(** What the registry answers: the status of opening the key
    [SOFTWARE\ODBC\ODBCINST.INI\ODBC Drivers], and the status and value name
    [RegEnumValueW] gives for the indexes 0, 1, ...; past the end of the
    list the answer is [ERROR_NO_MORE_ITEMS]. *)
Record OdbcRegistry : Type := {
  reg_RegOpenKeyEx : Z;
  reg_RegEnumValueW : list (Z * string)
}.

Inductive DriversReturn : Type :=
| DriversNULL (e : PyErr)
| DriversList (results : list string).

(** The conversion [%ld] of [PyErr_Format]. *)
Definition format_ld (n : Z) : string :=
  DecimalString.NilZero.string_of_int (Z.to_int n).

Definition newline : string := String (ascii_of_nat 10) EmptyString.

(** The [while] loop over [RegEnumValueW(key, index++, ...)]; [ret] is still
    the status of [RegOpenKeyEx] when the body tests it.  Failures of
    [PyUnicode_FromWideChar] and [PyList_Append] are not modelled. *)
Fixpoint enumerate_drivers (ret : Z) (values : list (Z * string)) (results : list string)
  : DriversReturn :=
  match values with
  | [] => DriversList results
  | (status, name) :: rest =>
      if negb (status =? ERROR_SUCCESS) then DriversList results
      else if negb (ret =? ERROR_SUCCESS)
      then DriversNULL (Raised PyExc_RuntimeError
                          ("RegEnumKeyEx failed with error " ++ format_ld ret ++ newline))
      else enumerate_drivers ret rest (results ++ [name])
  end.

Definition mod_drivers (reg : OdbcRegistry) : DriversReturn :=
  let ret := reg_RegOpenKeyEx reg in
  if negb (ret =? ERROR_SUCCESS)
  then DriversNULL (Raised PyExc_RuntimeError
                      ("Unable to access the driver list in the registry.  error="
                       ++ format_ld ret))
  else enumerate_drivers ret (reg_RegEnumValueW reg) [].

(** ** The statements of the specification

    Definitions that follow the words of the specification, to be compared
    with the code above. *)

Definition is_control (key : string) : bool :=
  String.eqb key "autocommit" || String.eqb key "timeout".

(** The remap table as the specification lists it. *)
Definition remapped (key : string) : string :=
  if String.eqb key "user" then "uid"
  else if String.eqb key "password" then "pwd"
  else if String.eqb key "host" then "server"
  else key.

(** The fragment [key=value] of one keyword, after the remap. *)
Definition fragment (kv : string * string) : string :=
  remapped (fst kv) ++ "=" ++ snd kv.

(** The connection string as claimed: the positional string, if one was
    supplied, followed by the fragments, joined with [;]. *)
Definition claimed_connection_string (positional : option string)
    (keywords : list (string * string)) : string :=
  String.concat ";"
    (match positional with Some s => [s] | None => [] end ++ map fragment keywords).

(** The same, with an empty positional string counting as none. *)
Definition assembled_connection_string (positional : option string)
    (keywords : list (string * string)) : string :=
  String.concat ";"
    (match positional with
     | Some s => if String.eqb s "" then [] else [s]
     | None => []
     end ++ map fragment keywords).

(** A call's arguments: the tuple for an optional positional string, the
    dictionary for keywords whose values are strings, and back. *)
Definition positional_args (positional : option string) : list PyObject :=
  match positional with
  | Some s => [PyUnicode s]
  | None => []
  end.

Definition string_keywords (keywords : list (string * string)) : PyDict PyObject :=
  map (fun kv => (fst kv, PyUnicode (snd kv))) keywords.

Definition positional_of (args : list PyObject) : option string :=
  match args with
  | PyUnicode s :: _ => Some s
  | _ => None
  end.

(** The keywords of a dictionary that are connection-string material: those
    that are no control keyword and carry a string. *)
Fixpoint string_fragments (kwargs : PyDict PyObject) : list (string * string) :=
  match kwargs with
  | [] => []
  | (key, value) :: rest =>
      if is_control key then string_fragments rest
      else
        match value with
        | PyUnicode s => (key, s) :: string_fragments rest
        | _ => string_fragments rest
        end
  end.

(** The truthiness the [autocommit] keyword asks for (an absent keyword asks
    for none; only a value that tests false turns it off). *)
Definition autocommit_requested (kwargs : PyDict PyObject) : bool :=
  match PyDict_GetItemString kwargs "autocommit" with
  | Some value =>
      match truth_value value with
      | Some false => false
      | _ => true
      end
  | None => false
  end.

(** The integer the [timeout] keyword asks for (0 when absent). *)
Definition timeout_requested (kwargs : PyDict PyObject) : option Z :=
  match PyDict_GetItemString kwargs "timeout" with
  | Some value => long_value value
  | None => Some 0
  end.

(** The group separator as claimed for a null host separator. *)
Definition claimed_group_separator (decimal_point : ascii) : ascii :=
  if Ascii.eqb decimal_point "." then "," else ".".

(** The group separator the code picks for a null host separator. *)
Definition opposite_separator (decimal_point : ascii) : ascii :=
  if Ascii.eqb decimal_point "," then "." else ",".

(** A call that sets the pooling attribute. *)
Definition sets_pooling (c : NativeCall) : bool :=
  match c with
  | SQLSetEnvAttr _ attribute _ => attribute =? SQL_ATTR_CONNECTION_POOLING
  | _ => false
  end.

(** The taxonomy as the specification draws it. *)
Definition specified_parent (n : ExcName) : ExcParent :=
  match n with
  | Error | Warning => PyExc_Exception
  | InterfaceError | DatabaseError => Global Error
  | DataError | OperationalError | IntegrityError | InternalError
  | ProgrammingError | NotSupportedError => Global DatabaseError
  end.

(** The text a builder holds after the fragments are appended to [cs], a
    separator going before each one unless the builder is empty. *)
Definition join_onto (cs : string) (fragments : list string) : string :=
  fold_left (fun cs f => if String.eqb cs "" then f else cs ++ ";" ++ f) fragments cs.

(** The locals [mod_connect] enters the keyword loop with. *)
Definition initial_locals (positional : option string) : ConnectLocals :=
  {| cstring := match positional with Some s => s | None => "" end;
     fAutoCommit := 0; timeout := 0; err := None |}.

(** The name and description of each fetch of a script. *)
Definition fetched (script : list (SQLRETURN * string * string)) : PyDict string :=
  map (fun f => (snd (fst f), snd f)) script.

(** A fetch whose status has succeeded. *)
Definition fetch_succeeded (f : SQLRETURN * string * string) : bool :=
  SQL_SUCCEEDED (fst (fst f)).

(** A script tail that ends the enumeration with no more data. *)
Definition ends_enumeration (stop : list (SQLRETURN * string * string)) : Prop :=
  match stop with
  | [] => True
  | (ret, _, _) :: _ => ret = SQL_NO_DATA
  end.

(** The calls [AllocateEnv] makes when every one of them succeeds. *)
Definition allocation_calls (bPooling : bool) (h : HANDLE) : list NativeCall :=
  ((if bPooling
    then [SQLSetEnvAttr SQL_NULL_HANDLE SQL_ATTR_CONNECTION_POOLING SQL_CP_ONE_PER_HENV]
    else []) ++
   [SQLAllocHandle SQL_HANDLE_ENV SQL_NULL_HANDLE;
    SQLSetEnvAttr h SQL_ATTR_ODBC_VERSION SQL_OV_ODBC3])%list.

(** Every class pointer that is not null points to a class on the heap that
    holds [refs] references. *)
Definition pointers_hold (refs : nat) (r : Registry) : Prop :=
  forall n a, exc_global r n = Some a ->
    exists c, nth_error (heap r) a = Some c /\ ob_refcnt c = refs.

(** A start-up in which every class is created and an error is pending
    once the constants are added. *)
Definition late_error_host : InitHost :=
  {| sqlwchar_size_ok := true; types_ready := true; import_types_ok := true;
     host_locale := NoLocaleModule;
     exc_failure := fun _ => None;
     error_after_constants := true |}.

(** A registry whose third value cannot be read. *)
Definition sample_registry : OdbcRegistry :=
  {| reg_RegOpenKeyEx := ERROR_SUCCESS;
     reg_RegEnumValueW := [(ERROR_SUCCESS, "SQL Server");
                           (ERROR_SUCCESS, "PostgreSQL Unicode");
                           (ERROR_MORE_DATA, "");
                           (ERROR_SUCCESS, "MySQL ODBC 8.0 Driver")] |}.

(** Sample hosts for the examples. *)
Definition sample_driver_manager : DriverManager :=
  {| dm_SQLSetEnvAttr := fun _ _ _ => SQL_SUCCESS;
     dm_SQLAllocHandle := fun _ _ => (SQL_SUCCESS, 7);
     dm_SQLDataSourcesW := [(SQL_SUCCESS, "Sales", "user data source");
                            (SQL_SUCCESS_WITH_INFO, "Stock", "system data source")];
     dm_SQLGetDiagRec := fun _ _ => "[IM002] Data source name not found" |}.

Definition cold_process : Process :=
  {| henv := SQL_NULL_HANDLE; pooling := Some Py_True; native_calls := [] |}.

Definition allocated_process : Process :=
  {| henv := 7;
     pooling := Some Py_True;
     native_calls :=
       [SQLSetEnvAttr SQL_NULL_HANDLE SQL_ATTR_CONNECTION_POOLING SQL_CP_ONE_PER_HENV;
        SQLAllocHandle SQL_HANDLE_ENV SQL_NULL_HANDLE;
        SQLSetEnvAttr 7 SQL_ATTR_ODBC_VERSION SQL_OV_ODBC3] |}.

(** A driver manager that lists the name [Sales] twice, as a user and as a
    system data source. *)
Definition repeating_driver_manager : DriverManager :=
  {| dm_SQLSetEnvAttr := fun _ _ _ => SQL_SUCCESS;
     dm_SQLAllocHandle := fun _ _ => (SQL_SUCCESS, 7);
     dm_SQLDataSourcesW := [(SQL_SUCCESS, "Sales", "user data source");
                            (SQL_SUCCESS, "Sales", "system data source")];
     dm_SQLGetDiagRec := fun _ _ => "" |}.



(** The process after [k + 1] fetches on the environment handle. *)
Definition after_fetches (p : Process) (k : nat) : Process :=
  {| henv := henv p; pooling := pooling p;
     native_calls :=
       (native_calls p ++ repeat (SQLDataSourcesW (henv p) SQL_FETCH_NEXT) (S k))%list |}.

(** A start-up in which everything works. *)
Definition working_host : InitHost :=
  {| sqlwchar_size_ok := true; types_ready := true; import_types_ok := true;
     host_locale := NoLocaleModule;
     exc_failure := fun _ => None;
     error_after_constants := false |}.

(** A start-up in which the third class, [InterfaceError], cannot be
    created. *)
Definition third_class_fails : InitHost :=
  {| sqlwchar_size_ok := true; types_ready := true; import_types_ok := true;
     host_locale := NoLocaleModule;
     exc_failure := fun n => match n with
                             | InterfaceError => Some PyErr_NewException_fails
                             | _ => None
                             end;
     error_after_constants := false |}.

(** A host locale with the decimal point [/] and a null group separator. *)
Definition slash_locale : HostLocale :=
  Localeconv [("decimal_point", PyUnicode "/");
              ("thousands_sep", PyUnicode (String zero EmptyString))].

(** An object whose truth test raises and that is no integer. *)
Definition raising_object : PyObject := PyInstance None None.

(** * Properties *)

(** ** Strings *)

Lemma append_assoc (a b c : string) : ((a ++ b) ++ c = a ++ (b ++ c))%string.
Proof.
  induction a as [| ch a IH]; simpl.
  - reflexivity.
  - now rewrite IH.
Qed.

Lemma append_empty_r (a : string) : (a ++ "" = a)%string.
Proof.
  induction a as [| ch a IH]; simpl; [reflexivity | now rewrite IH].
Qed.

Lemma append_eq_empty (a b : string) : (a ++ b = "")%string -> a = "" /\ b = "".
Proof.
  destruct a; simpl; intros H.
  - now split.
  - discriminate H.
Qed.

Lemma Unicode_Size_zero (s : string) : (Unicode_Size s =? 0) = String.eqb s "".
Proof.
  destruct s; reflexivity.
Qed.

Lemma indicator_after_environment_clear (p : Process) :
  indicator_after_environment p None = None.
Proof.
  unfold indicator_after_environment. now destruct (henv p =? SQL_NULL_HANDLE).
Qed.

Lemma fragment_not_empty (kv : string * string) : fragment kv <> "".
Proof.
  unfold fragment. intros H.
  apply append_eq_empty in H. destruct H as [_ H]. discriminate H.
Qed.

(** The remap loop over [keywordmaps] is the table of the specification. *)
Lemma map_keyword_remapped (key : string) : map_keyword keywordmaps key = remapped key.
Proof.
  unfold remapped. simpl.
  destruct (String.eqb key "user"); [reflexivity |].
  destruct (String.eqb key "password"); [reflexivity |].
  destruct (String.eqb key "host"); reflexivity.
Qed.

Lemma join_onto_concat (fragments : list string) :
  Forall (fun f => f <> "") fragments ->
  forall cs,
    join_onto cs fragments =
    String.concat ";" ((if String.eqb cs "" then [] else [cs]) ++ fragments).
Proof.
  induction 1 as [| f rest Hf Hrest IH]; intros cs.
  - unfold join_onto. simpl. rewrite app_nil_r.
    destruct (String.eqb_spec cs ""); [assumption | reflexivity].
  - unfold join_onto in *. cbn [fold_left]. rewrite IH.
    destruct (String.eqb_spec cs "") as [-> | Hcs].
    + destruct (String.eqb_spec f ""); [contradiction | reflexivity].
    + assert (Hstep : String.eqb (cs ++ ";" ++ f) "" = false).
      { apply String.eqb_neq. intros E.
        apply append_eq_empty in E. destruct E as [E _]. contradiction. }
      rewrite Hstep. cbn [app]. destruct rest as [| r rs].
      * reflexivity.
      * cbn [String.concat]. rewrite !append_assoc. reflexivity.
Qed.

(** ** The keyword loop *)

(** Over keywords that are no control keyword and carry strings, the loop
    runs to its end and only appends fragments. *)
Lemma connect_keywords_strings (keywords : list (string * string)) :
  Forall (fun kv => is_control (fst kv) = false) keywords ->
  forall l,
    connect_keywords (string_keywords keywords) l =
    Continue {| cstring := join_onto (cstring l) (map fragment keywords);
                fAutoCommit := fAutoCommit l; timeout := timeout l; err := err l |}.
Proof.
  induction 1 as [| [key value] rest Hkey Hrest IH]; intros l.
  - destruct l; reflexivity.
  - simpl in Hkey. unfold is_control in Hkey.
    apply orb_false_iff in Hkey. destruct Hkey as [Hauto Htime].
    cbn [string_keywords map connect_keywords fst snd].
    unfold connect_keyword. rewrite Hauto, Htime.
    fold (string_keywords rest). rewrite IH. cbn [cstring fAutoCommit timeout err].
    f_equal. f_equal.
    unfold join_onto. cbn [map fold_left]. f_equal.
    rewrite Unicode_Size_zero, map_keyword_remapped.
    unfold Unicode_Append, fragment. cbn [fst snd].
    destruct (String.eqb_spec (cstring l) "") as [E | _].
    + rewrite E, !append_assoc. reflexivity.
    + rewrite !append_assoc. reflexivity.
Qed.

(** ** C1: the assembled connection string *)

(** The claimed string and the assembled one differ only when an empty
    positional string is supplied. *)
Lemma assembled_is_claimed (positional : option string) (keywords : list (string * string)) :
  positional <> Some "" ->
  assembled_connection_string positional keywords =
  claimed_connection_string positional keywords.
Proof.
  intros Hpos. unfold assembled_connection_string, claimed_connection_string.
  destruct positional as [s |]; [| reflexivity].
  destruct (String.eqb_spec s "") as [-> | _]; [contradiction | reflexivity].
Qed.

(** C1 (amended).  For a call whose keywords are no control keywords and
    carry strings, [mod_connect] assembles the positional string (if one was
    supplied and is not empty) followed by one fragment [key=value] per
    keyword in input order, joined with [;], each key replaced through the
    remap table.  An empty result is rejected; otherwise, once the
    environment is there, that string goes to [Connection_New] with
    autocommit off and timeout 0. *)
Theorem mod_connect_assembles (dm : DriverManager) (p p' : Process)
    (positional : option string) (keywords : list (string * string)) :
  Forall (fun kv => is_control (fst kv) = false) keywords ->
  ensure_environment dm p = Returns tt p' ->
  mod_connect dm (positional_args positional) (string_keywords keywords) p =
  if String.eqb (assembled_connection_string positional keywords) ""
  then Returns (NULL (Raised PyExc_TypeError "no connection information was passed")) p
  else Returns (Connection_New (assembled_connection_string positional keywords)
                  false 0 None) p'.
Proof.
  intros Hkeys Henv.
  assert (Hloop : forall s,
    connect_keywords (string_keywords keywords)
      {| cstring := s; fAutoCommit := 0; timeout := 0; err := None |} =
    Continue {| cstring := String.concat ";"
                  ((if String.eqb s "" then [] else [s]) ++ map fragment keywords);
                fAutoCommit := 0; timeout := 0; err := None |}).
  { intros s. rewrite (connect_keywords_strings keywords Hkeys).
    cbn [cstring fAutoCommit timeout err].
    rewrite join_onto_concat; [reflexivity |].
    apply Forall_forall. intros f Hf. apply in_map_iff in Hf.
    destruct Hf as [kv [<- _]]. apply fragment_not_empty. }
  assert (Hfinish : forall cs,
    connect_finish dm {| cstring := cs; fAutoCommit := 0; timeout := 0; err := None |} p =
    if String.eqb cs ""
    then Returns (NULL (Raised PyExc_TypeError "no connection information was passed")) p
    else Returns (Connection_New cs false 0 None) p').
  { intros cs. unfold connect_finish. cbn [cstring fAutoCommit timeout err].
    rewrite Unicode_Size_zero, Henv, indicator_after_environment_clear. reflexivity. }
  unfold mod_connect, assembled_connection_string.
  destruct positional as [s |]; cbn [positional_args List.length Z.of_nat].
  - change (1 <? Z.of_nat 1) with false. cbn iota.
    change (Unicode_Append "" s) with s.
    rewrite Hloop. apply Hfinish.
  - change (1 <? Z.of_nat 0) with false. cbn iota.
    rewrite Hloop. apply Hfinish.
Qed.

Lemma mod_connect_assembles_witness :
  mod_connect sample_driver_manager (positional_args (Some "DSN=x"))
    (string_keywords [("user", "alice"); ("driver", "foo")]) cold_process =
  Returns (Connection_New "DSN=x;uid=alice;driver=foo" false 0 None) allocated_process.
Proof.
  apply (mod_connect_assembles sample_driver_manager cold_process allocated_process
           (Some "DSN=x") [("user", "alice"); ("driver", "foo")]).
  - repeat constructor.
  - reflexivity.
Defined.

(** C1 as claimed fails for an empty positional string: no separator is put
    after it, where joining with [;] would give one. *)
Lemma mod_connect_empty_positional :
  mod_connect sample_driver_manager (positional_args (Some ""))
    (string_keywords [("driver", "foo")]) allocated_process =
  Returns (Connection_New "driver=foo" false 0 None) allocated_process
  /\ claimed_connection_string (Some "") [("driver", "foo")] = ";driver=foo".
Proof.
  split; reflexivity.
Qed.

(** ** C2: the control keywords *)

Lemma PyDict_GetItemString_absent {V : Type} (d : PyDict V) (key : string) :
  ~ In key (map fst d) -> PyDict_GetItemString d key = None.
Proof.
  induction d as [| [k v] rest IH]; simpl; intros Hnot.
  - reflexivity.
  - destruct (String.eqb_spec k key) as [-> | _].
    + exfalso. apply Hnot. now left.
    + apply IH. intros Hin. apply Hnot. now right.
Qed.

(** What one turn of the loop does when it goes on to the next keyword. *)
Lemma connect_keyword_continue (l l1 : ConnectLocals) (key : string) (value : PyObject) :
  connect_keyword l key value = Continue l1 ->
  (key = "autocommit" /\
   l1 = {| cstring := cstring l; fAutoCommit := fst (PyObject_IsTrue value None);
           timeout := timeout l; err := snd (PyObject_IsTrue value (err l)) |})
  \/ (String.eqb key "autocommit" = false /\ key = "timeout" /\ err l = None /\
      exists n, long_value value = Some n /\
        l1 = {| cstring := cstring l; fAutoCommit := fAutoCommit l;
                timeout := n; err := None |})
  \/ (is_control key = false /\
      exists s, value = PyUnicode s /\
        l1 = {| cstring := join_onto (cstring l) [fragment (key, s)];
                fAutoCommit := fAutoCommit l; timeout := timeout l; err := err l |}).
Proof.
  unfold connect_keyword, is_control.
  destruct (String.eqb_spec key "autocommit") as [-> | Hauto].
  - intros H. left. split; [reflexivity |].
    unfold PyObject_IsTrue in *.
    destruct (truth_value value) as [[|] |]; injection H as <-; reflexivity.
  - destruct (String.eqb_spec key "timeout") as [-> | Htime].
    + intros H. right. left. split; [reflexivity |]. split; [reflexivity |].
      unfold PyLong_AsLong in H.
      destruct (long_value value) as [n |]; [| discriminate H].
      destruct (err l) as [pending |] eqn:Herr; [discriminate H |].
      injection H as <-. split; [reflexivity |]. exists n. now split.
    + intros H. right. right. split; [reflexivity |].
      destruct value as [| b | n | s | t i]; try discriminate H.
      exists s. split; [reflexivity |]. injection H as <-. f_equal.
      unfold join_onto. cbn [fold_left].
      rewrite Unicode_Size_zero.
      unfold Unicode_Append, fragment, remapped. cbn [fst snd].
      destruct (String.eqb_spec (cstring l) "") as [E | _].
      * rewrite E, !append_assoc. reflexivity.
      * rewrite !append_assoc. reflexivity.
Qed.

Lemma join_onto_app (cs : string) (a b : list string) :
  join_onto cs (a ++ b) = join_onto (join_onto cs a) b.
Proof.
  unfold join_onto. apply fold_left_app.
Qed.

(** The text at the end of a loop that ran through a dictionary: only the
    keywords that are no control keywords have added to it. *)
Lemma connect_keywords_cstring (kwargs : PyDict PyObject) :
  forall l l',
    connect_keywords kwargs l = Continue l' ->
    cstring l' = join_onto (cstring l) (map fragment (string_fragments kwargs)).
Proof.
  induction kwargs as [| [key value] rest IH]; intros l l' Hrun.
  - injection Hrun as <-. reflexivity.
  - cbn [connect_keywords] in Hrun.
    destruct (connect_keyword l key value) as [l1 |] eqn:Hstep; [| discriminate Hrun].
    rewrite (IH l1 l' Hrun).
    apply connect_keyword_continue in Hstep.
    cbn [string_fragments].
    destruct Hstep as [[-> ->] | [[_ [-> [_ [n [_ ->]]]]] | [Hctl [s [-> ->]]]]].
    + reflexivity.
    + reflexivity.
    + rewrite Hctl. cbn [cstring map].
      change (fragment (key, s) :: map fragment (string_fragments rest))
        with ([fragment (key, s)] ++ map fragment (string_fragments rest))%list.
      now rewrite join_onto_app.
Qed.

(** The two control locals at the end of a loop that ran through a
    dictionary (no key twice). *)
Lemma connect_keywords_control (kwargs : PyDict PyObject) :
  NoDup (map fst kwargs) ->
  forall l l',
    connect_keywords kwargs l = Continue l' ->
    fAutoCommit l' =
      match PyDict_GetItemString kwargs "autocommit" with
      | Some value => fst (PyObject_IsTrue value None)
      | None => fAutoCommit l
      end
    /\ match PyDict_GetItemString kwargs "timeout" with
       | Some value => long_value value = Some (timeout l')
       | None => timeout l' = timeout l
       end.
Proof.
  induction kwargs as [| [key value] rest IH]; intros Hdup l l' Hrun.
  - injection Hrun as <-. now split.
  - cbn [map fst] in Hdup. inversion Hdup as [| k ks Hfresh Hrest]; subst.
    cbn [connect_keywords] in Hrun.
    destruct (connect_keyword l key value) as [l1 |] eqn:Hstep; [| discriminate Hrun].
    destruct (IH Hrest l1 l' Hrun) as [Hac Hto].
    apply connect_keyword_continue in Hstep.
    cbn [PyDict_GetItemString].
    destruct Hstep as [[-> ->] | [[Hauto [-> [Herr [n [Hn ->]]]]] | [Hctl [s [-> ->]]]]].
    + change (String.eqb "autocommit" "autocommit") with true.
      change (String.eqb "autocommit" "timeout") with false. cbn iota.
      rewrite (PyDict_GetItemString_absent rest "autocommit" Hfresh) in Hac.
      cbn [fAutoCommit timeout] in *. now split.
    + change (String.eqb "timeout" "autocommit") with false.
      change (String.eqb "timeout" "timeout") with true. cbn iota.
      rewrite (PyDict_GetItemString_absent rest "timeout" Hfresh) in Hto.
      cbn [fAutoCommit timeout] in *. rewrite Hto. now split.
    + unfold is_control in Hctl. apply orb_false_iff in Hctl.
      destruct Hctl as [-> ->].
      cbn [fAutoCommit timeout] in *. now split.
Qed.

(** A loop whose values all coerce runs to the end and leaves no error. *)
Lemma connect_keywords_runs (kwargs : PyDict PyObject) :
  (forall key value, In (key, value) kwargs -> is_control key = false ->
                     PyUnicode_Check value = true) ->
  (forall value, In ("autocommit", value) kwargs -> truth_value value <> None) ->
  (forall value, In ("timeout", value) kwargs -> long_value value <> None) ->
  forall l, err l = None ->
    exists l', connect_keywords kwargs l = Continue l' /\ err l' = None.
Proof.
  induction kwargs as [| [key value] rest IH]; intros Hstr Hac Hto l Herr.
  - exists l. now split.
  - assert (Hnext : exists l1, connect_keyword l key value = Continue l1 /\ err l1 = None).
    { unfold connect_keyword.
      destruct (String.eqb_spec key "autocommit") as [-> | Hauto].
      - specialize (Hac value (or_introl eq_refl)).
        unfold PyObject_IsTrue. rewrite Herr.
        destruct (truth_value value) as [[|] |]; [| | contradiction];
          eexists; split; reflexivity.
      - destruct (String.eqb_spec key "timeout") as [-> | Htime].
        + specialize (Hto value (or_introl eq_refl)).
          unfold PyLong_AsLong. rewrite Herr.
          destruct (long_value value) as [n |]; [| contradiction].
          eexists; split; reflexivity.
        + assert (Hctl : is_control key = false).
          { unfold is_control. apply orb_false_iff.
            split; now apply String.eqb_neq. }
          specialize (Hstr key value (or_introl eq_refl) Hctl).
          destruct value as [| b | n | s | t i]; try discriminate Hstr.
          eexists; split; [reflexivity | exact Herr]. }
    destruct Hnext as [l1 [Hstep Herr1]].
    destruct (IH (fun k v H => Hstr k v (or_intror H))
                 (fun v H => Hac v (or_intror H))
                 (fun v H => Hto v (or_intror H)) l1 Herr1) as [l' [Hrun Herr']].
    exists l'. cbn [connect_keywords]. rewrite Hstep. now split.
Qed.

Lemma mod_connect_positional (dm : DriverManager) (positional : option string)
    (kwargs : PyDict PyObject) (p : Process) :
  mod_connect dm (positional_args positional) kwargs p =
  match connect_keywords kwargs (initial_locals positional) with
  | Return0 e => Returns (NULL e) p
  | Continue l => connect_finish dm l p
  end.
Proof.
  destruct positional; reflexivity.
Qed.

Lemma mod_connect_connection_args (dm : DriverManager) (args : list PyObject)
    (kwargs : PyDict PyObject) (p p' : Process) cs ac to pending :
  mod_connect dm args kwargs p = Returns (Connection_New cs ac to pending) p' ->
  args = positional_args (positional_of args).
Proof.
  unfold mod_connect.
  destruct args as [| arg0 [| arg1 more]].
  - reflexivity.
  - change (1 <? Z.of_nat (List.length [arg0])) with false. cbn iota.
    destruct arg0; try discriminate. reflexivity.
  - assert (Hsize : (1 <? Z.of_nat (List.length (arg0 :: arg1 :: more))) = true).
    { apply Z.ltb_lt. cbn [List.length]. lia. }
    rewrite Hsize. discriminate.
Qed.

Lemma connect_finish_connection (dm : DriverManager) (l : ConnectLocals) (p p' : Process)
    cs ac to pending :
  connect_finish dm l p = Returns (Connection_New cs ac to pending) p' ->
  cs = cstring l /\ ac = negb (fAutoCommit l =? 0) /\ to = timeout l
  /\ pending = indicator_after_environment p (err l).
Proof.
  unfold connect_finish.
  destruct (Unicode_Size (cstring l) =? 0); [discriminate |].
  destruct (ensure_environment dm p); try discriminate.
  intros H. injection H as <- <- <- <- _. now repeat split.
Qed.

Lemma join_onto_assembled (positional : option string) (keywords : list (string * string)) :
  join_onto (cstring (initial_locals positional)) (map fragment keywords) =
  assembled_connection_string positional keywords.
Proof.
  rewrite join_onto_concat.
  - unfold assembled_connection_string. destruct positional; reflexivity.
  - apply Forall_forall. intros f Hf. apply in_map_iff in Hf.
    destruct Hf as [kv [<- _]]. apply fragment_not_empty.
Qed.

Lemma autocommit_requested_code (kwargs : PyDict PyObject) :
  negb (match PyDict_GetItemString kwargs "autocommit" with
        | Some value => fst (PyObject_IsTrue value None)
        | None => 0
        end =? 0) = autocommit_requested kwargs.
Proof.
  unfold autocommit_requested, PyObject_IsTrue.
  destruct (PyDict_GetItemString kwargs "autocommit") as [value |]; [| reflexivity].
  destruct (truth_value value) as [[|] |]; reflexivity.
Qed.

(** C2.  A keyword named [autocommit] or [timeout] adds nothing to the
    connection string, whatever its value and place: whenever [mod_connect]
    reaches [Connection_New], the string is the one assembled from the other
    keywords alone, the autocommit argument is the truthiness of the
    [autocommit] value and the timeout argument the integer of the [timeout]
    value.  And the call does reach [Connection_New] with these when the
    values coerce, the other keywords carry strings, the string is not empty
    and the environment is there. *)
Theorem mod_connect_control_keywords (dm : DriverManager) (p : Process)
    (args : list PyObject) (kwargs : PyDict PyObject) :
  NoDup (map fst kwargs) ->
  (forall cs ac to pending p',
      mod_connect dm args kwargs p = Returns (Connection_New cs ac to pending) p' ->
      cs = assembled_connection_string (positional_of args) (string_fragments kwargs)
      /\ ac = autocommit_requested kwargs
      /\ timeout_requested kwargs = Some to)
  /\ (forall positional p',
      args = positional_args positional ->
      (forall key value, In (key, value) kwargs -> is_control key = false ->
                         PyUnicode_Check value = true) ->
      (forall value, In ("autocommit", value) kwargs -> truth_value value <> None) ->
      (forall value, In ("timeout", value) kwargs -> long_value value <> None) ->
      ensure_environment dm p = Returns tt p' ->
      assembled_connection_string positional (string_fragments kwargs) <> "" ->
      exists to,
        timeout_requested kwargs = Some to /\
        mod_connect dm args kwargs p =
        Returns (Connection_New
                   (assembled_connection_string positional (string_fragments kwargs))
                   (autocommit_requested kwargs) to None) p').
Proof.
  intros Hdup.
  assert (Hend : forall positional l,
    connect_keywords kwargs (initial_locals positional) = Continue l ->
    cstring l = assembled_connection_string positional (string_fragments kwargs)
    /\ negb (fAutoCommit l =? 0) = autocommit_requested kwargs
    /\ timeout_requested kwargs = Some (timeout l)).
  { intros positional l Hrun.
    destruct (connect_keywords_control kwargs Hdup _ _ Hrun) as [Hac Hto].
    split; [| split].
    - rewrite (connect_keywords_cstring kwargs _ _ Hrun). apply join_onto_assembled.
    - rewrite Hac. apply autocommit_requested_code.
    - unfold timeout_requested.
      destruct (PyDict_GetItemString kwargs "timeout") as [value |].
      + exact Hto.
      + rewrite Hto. reflexivity. }
  split.
  - intros cs ac to pending p' Hcall.
    pose proof (mod_connect_connection_args _ _ _ _ _ _ _ _ _ Hcall) as Hargs.
    rewrite Hargs, mod_connect_positional in Hcall.
    destruct (connect_keywords kwargs (initial_locals (positional_of args)))
      as [l |] eqn:Hrun; [| discriminate Hcall].
    apply connect_finish_connection in Hcall.
    destruct Hcall as [-> [-> [-> _]]].
    exact (Hend _ _ Hrun).
  - intros positional p' -> Hstr Hac Hto Henv Hfull.
    destruct (connect_keywords_runs kwargs Hstr Hac Hto (initial_locals positional) eq_refl)
      as [l [Hrun Herr]].
    destruct (Hend _ _ Hrun) as [Hcs [Hauto Htime]].
    exists (timeout l). split; [exact Htime |].
    rewrite mod_connect_positional, Hrun.
    unfold connect_finish. rewrite Unicode_Size_zero, Hcs.
    apply String.eqb_neq in Hfull.
    rewrite Hfull, Henv, Hauto, Herr, indicator_after_environment_clear. reflexivity.
Qed.

Lemma mod_connect_control_keywords_witness :
  "DSN=x;uid=alice;driver=foo" =
    assembled_connection_string (positional_of [PyUnicode "DSN=x"])
      (string_fragments [("user", PyUnicode "alice"); ("autocommit", PyLong 1);
                         ("driver", PyUnicode "foo"); ("timeout", PyLong 5)])
  /\ true = autocommit_requested
              [("user", PyUnicode "alice"); ("autocommit", PyLong 1);
               ("driver", PyUnicode "foo"); ("timeout", PyLong 5)]
  /\ timeout_requested
       [("user", PyUnicode "alice"); ("autocommit", PyLong 1);
        ("driver", PyUnicode "foo"); ("timeout", PyLong 5)] = Some 5.
Proof.
  refine (proj1 (mod_connect_control_keywords sample_driver_manager cold_process
                   [PyUnicode "DSN=x"]
                   [("user", PyUnicode "alice"); ("autocommit", PyLong 1);
                    ("driver", PyUnicode "foo"); ("timeout", PyLong 5)] _)
                _ _ _ None allocated_process _).
  - repeat constructor; simpl; intuition discriminate.
  - reflexivity.
Defined.

(** ** C5: no connection information *)

Lemma string_fragments_control (kwargs : PyDict PyObject) :
  Forall (fun kv => is_control (fst kv) = true) kwargs ->
  string_fragments kwargs = [].
Proof.
  induction 1 as [| [key value] rest Hkey _ IH]; [reflexivity |].
  cbn [string_fragments]. cbn [fst] in Hkey. now rewrite Hkey.
Qed.

(** C5 (amended).  A call with no positional argument whose keywords are all
    control keywords, with values that coerce, is rejected with [TypeError]
    and the message "no connection information was passed"; the process is
    left as it was: no handle is allocated and no native call made. *)
Theorem mod_connect_no_information (dm : DriverManager) (p : Process)
    (kwargs : PyDict PyObject) :
  Forall (fun kv => is_control (fst kv) = true) kwargs ->
  (forall value, In ("autocommit", value) kwargs -> truth_value value <> None) ->
  (forall value, In ("timeout", value) kwargs -> long_value value <> None) ->
  mod_connect dm [] kwargs p =
  Returns (NULL (Raised PyExc_TypeError "no connection information was passed")) p.
Proof.
  intros Hctl Hac Hto.
  assert (Hstr : forall key value, In (key, value) kwargs -> is_control key = false ->
                                   PyUnicode_Check value = true).
  { intros key value Hin Hkey.
    rewrite Forall_forall in Hctl. specialize (Hctl _ Hin). cbn [fst] in Hctl.
    congruence. }
  destruct (connect_keywords_runs kwargs Hstr Hac Hto (initial_locals None) eq_refl)
    as [l [Hrun _]].
  pose proof (connect_keywords_cstring kwargs _ _ Hrun) as Hcs.
  rewrite (string_fragments_control kwargs Hctl) in Hcs. cbn in Hcs.
  rewrite (mod_connect_positional dm None), Hrun.
  unfold connect_finish. now rewrite Hcs.
Qed.

Lemma mod_connect_no_information_witness :
  mod_connect sample_driver_manager []
    [("autocommit", Py_True); ("timeout", PyLong 30)] cold_process =
  Returns (NULL (Raised PyExc_TypeError "no connection information was passed")) cold_process.
Proof.
  apply (mod_connect_no_information sample_driver_manager cold_process
           [("autocommit", Py_True); ("timeout", PyLong 30)]).
  - repeat constructor.
  - simpl. intros value [H | [H | []]]; inversion H; subst; discriminate.
  - simpl. intros value [H | [H | []]]; inversion H; subst; discriminate.
Defined.

(** C5 as claimed fails when the only keyword is a [timeout] that is no
    integer: the call is rejected with the conversion's exception, not with
    the "no connection information" message. *)
Lemma mod_connect_timeout_not_integer :
  mod_connect sample_driver_manager [] [("timeout", PyUnicode "soon")] cold_process =
  Returns (NULL (RaisedBy "PyLong_AsLong" (PyUnicode "soon"))) cold_process
  /\ string_fragments [("timeout", PyUnicode "soon")] = [].
Proof.
  split; reflexivity.
Qed.

(** ** C10: an [autocommit] value whose truth test raises *)

Lemma connect_keywords_app (a b : PyDict PyObject) (l : ConnectLocals) :
  connect_keywords (a ++ b)%list l =
  match connect_keywords a l with
  | Continue l1 => connect_keywords b l1
  | Return0 e => Return0 e
  end.
Proof.
  revert l. induction a as [| [key value] rest IH]; intros l.
  - reflexivity.
  - cbn [app connect_keywords].
    destruct (connect_keyword l key value); [apply IH | reflexivity].
Qed.

(** The loop after an [autocommit] value whose truth test raised: over
    the keywords accepted before it, that value, and connection-string
    keywords, it runs to the end with the sentinel -1 in [fAutoCommit] and
    the exception pending. *)
Lemma connect_keywords_truth_raises (positional : option string)
    (before : PyDict PyObject) (value : PyObject) (after : list (string * string)) :
  truth_value value = None ->
  (forall key v, In (key, v) before -> is_control key = false -> PyUnicode_Check v = true) ->
  (forall v, In ("autocommit", v) before -> truth_value v <> None) ->
  (forall v, In ("timeout", v) before -> long_value v <> None) ->
  Forall (fun kv => is_control (fst kv) = false) after ->
  exists l1,
    connect_keywords before (initial_locals positional) = Continue l1
    /\ forall rest,
         connect_keywords
           (before ++ ("autocommit", value) :: string_keywords after ++ rest)%list
           (initial_locals positional) =
         connect_keywords rest
           {| cstring := join_onto (cstring l1) (map fragment after);
              fAutoCommit := -1; timeout := timeout l1;
              err := Some (RaisedBy "PyObject_IsTrue" value) |}.
Proof.
  intros Htruth Hstr Hac Hto Hafter.
  destruct (connect_keywords_runs before Hstr Hac Hto (initial_locals positional) eq_refl)
    as [l1 [Hrun1 Herr1]].
  exists l1. split; [exact Hrun1 |].
  intros rest. rewrite connect_keywords_app, Hrun1.
  cbn [connect_keywords]. unfold connect_keyword at 1.
  change (String.eqb "autocommit" "autocommit") with true. cbn iota.
  unfold PyObject_IsTrue. rewrite Htruth.
  rewrite connect_keywords_app, (connect_keywords_strings after Hafter). reflexivity.
Qed.

(** C10 (amended).  When the truth test of the [autocommit] value raises,
    [mod_connect] makes no check of it.  If the keywords processed after it
    are connection-string keywords only and nothing else is rejected, the
    call reaches [Connection_New] with autocommit on.  If a [timeout]
    keyword is processed after it, with connection-string keywords only in
    between, the check of the error indicator that follows the conversion
    finds the exception of the truth test, and [mod_connect] returns null
    with it although the [timeout] value converts. *)
Theorem mod_connect_autocommit_raises (dm : DriverManager) (p : Process)
    (positional : option string) (before : PyDict PyObject) (value : PyObject) :
  truth_value value = None ->
  (forall key v, In (key, v) before -> is_control key = false -> PyUnicode_Check v = true) ->
  (forall v, In ("autocommit", v) before -> truth_value v <> None) ->
  (forall v, In ("timeout", v) before -> long_value v <> None) ->
  (forall (after : list (string * string)) (p' : Process),
      NoDup (map fst (before ++ ("autocommit", value) :: string_keywords after)%list) ->
      Forall (fun kv => is_control (fst kv) = false) after ->
      ensure_environment dm p = Returns tt p' ->
      assembled_connection_string positional
        (string_fragments (before ++ ("autocommit", value) :: string_keywords after)%list)
        <> "" ->
      exists to pending,
        timeout_requested (before ++ ("autocommit", value) :: string_keywords after)%list
          = Some to /\
        mod_connect dm (positional_args positional)
          (before ++ ("autocommit", value) :: string_keywords after)%list p =
        Returns (Connection_New
                   (assembled_connection_string positional
                      (string_fragments
                         (before ++ ("autocommit", value) :: string_keywords after)%list))
                   true to pending) p')
  /\ (forall (between : list (string * string)) (tvalue : PyObject) (n : Z)
             (after : PyDict PyObject),
      Forall (fun kv => is_control (fst kv) = false) between ->
      long_value tvalue = Some n ->
      mod_connect dm (positional_args positional)
        (before ++ ("autocommit", value)
           :: string_keywords between ++ ("timeout", tvalue) :: after)%list p =
      Returns (NULL (RaisedBy "PyObject_IsTrue" value)) p).
Proof.
  intros Htruth Hstr Hac Hto. split.
  - intros after p' Hdup Hafter Henv Hfull.
    set (kwargs := (before ++ ("autocommit", value) :: string_keywords after)%list) in *.
    destruct (connect_keywords_truth_raises positional before value after
                Htruth Hstr Hac Hto Hafter) as [l1 [_ Hrest]].
    specialize (Hrest []). rewrite app_nil_r in Hrest. fold kwargs in Hrest.
    cbn [connect_keywords] in Hrest.
    destruct (connect_keywords_control kwargs Hdup _ _ Hrest) as [_ Htime].
    pose proof (connect_keywords_cstring kwargs _ _ Hrest) as Hcs.
    rewrite join_onto_assembled in Hcs. cbn [cstring timeout] in Hcs, Htime.
    exists (timeout l1).
    exists (indicator_after_environment p (Some (RaisedBy "PyObject_IsTrue" value))).
    split.
    + unfold timeout_requested.
      destruct (PyDict_GetItemString kwargs "timeout") as [v |]; [exact Htime |].
      rewrite Htime. reflexivity.
    + rewrite mod_connect_positional, Hrest.
      unfold connect_finish. cbn [cstring fAutoCommit timeout err].
      rewrite Unicode_Size_zero, Hcs.
      apply String.eqb_neq in Hfull. rewrite Hfull, Henv. reflexivity.
  - intros between tvalue n after Hbetween Hlong.
    destruct (connect_keywords_truth_raises positional before value between
                Htruth Hstr Hac Hto Hbetween) as [l1 [_ Hrest]].
    rewrite mod_connect_positional, Hrest.
    cbn [connect_keywords]. unfold connect_keyword.
    change (String.eqb "timeout" "autocommit") with false.
    change (String.eqb "timeout" "timeout") with true. cbn iota.
    unfold PyLong_AsLong. rewrite Hlong. reflexivity.
Qed.

Lemma mod_connect_autocommit_raises_witness :
  (exists to pending,
     timeout_requested
       ([("timeout", PyLong 5)] ++ ("autocommit", raising_object)
          :: string_keywords [("DSN", "x")])%list = Some to /\
     mod_connect sample_driver_manager (positional_args None)
       ([("timeout", PyLong 5)] ++ ("autocommit", raising_object)
          :: string_keywords [("DSN", "x")])%list cold_process =
     Returns (Connection_New
                (assembled_connection_string None
                   (string_fragments
                      ([("timeout", PyLong 5)] ++ ("autocommit", raising_object)
                         :: string_keywords [("DSN", "x")])%list))
                true to pending)
       allocated_process)
  /\ mod_connect sample_driver_manager (positional_args None)
       ([] ++ ("autocommit", raising_object)
          :: string_keywords [("DSN", "x")] ++ ("timeout", PyLong 5) :: [])%list
       cold_process =
     Returns (NULL (RaisedBy "PyObject_IsTrue" raising_object)) cold_process.
Proof.
  split.
  - apply (proj1 (mod_connect_autocommit_raises sample_driver_manager cold_process
                    None [("timeout", PyLong 5)] raising_object
                    eq_refl
                    ltac:(simpl; intros key v [H | []]; inversion H; subst; discriminate)
                    ltac:(simpl; intros v [H | []]; inversion H)
                    ltac:(simpl; intros v [H | []]; inversion H; subst; discriminate))
             [("DSN", "x")] allocated_process).
    + repeat constructor; simpl; intuition discriminate.
    + repeat constructor.
    + reflexivity.
    + discriminate.
  - apply (proj2 (mod_connect_autocommit_raises sample_driver_manager cold_process
                    None [] raising_object
                    eq_refl
                    ltac:(simpl; intros key v [])
                    ltac:(simpl; intros v [])
                    ltac:(simpl; intros v []))
             [("DSN", "x")] (PyLong 5) 5 []).
    + repeat constructor.
    + reflexivity.
Defined.

(** C10 as claimed fails when a [timeout] keyword comes after the
    [autocommit] one: its check of the error indicator finds the exception
    the truth test left, and [mod_connect] returns null with it. *)
Lemma mod_connect_autocommit_raises_then_timeout :
  mod_connect sample_driver_manager []
    [("DSN", PyUnicode "x"); ("autocommit", raising_object); ("timeout", PyLong 5)]
    cold_process =
  Returns (NULL (RaisedBy "PyObject_IsTrue" raising_object)) cold_process
  /\ truth_value raising_object = None
  /\ long_value (PyLong 5) = Some 5.
Proof.
  repeat split; reflexivity.
Qed.

(** ** C9: when pooling is applied *)

Lemma is_Py_True_iff (value : PyObject) : is_Py_True value = true <-> value = Py_True.
Proof.
  split.
  - destruct value as [| [|] | n | s | t i]; simpl; intros H;
      try discriminate H; reflexivity.
  - intros ->. reflexivity.
Qed.

(** C9.  The calls [AllocateEnv] makes include one that sets the pooling
    attribute exactly when the module's [pooling] attribute is the object
    [Py_True] itself; any other value, the truthy integer 1 among them,
    leaves the attribute unset. *)
Theorem AllocateEnv_pooling (dm : DriverManager) (h : HANDLE)
    (calls : list NativeCall) (value : PyObject) :
  (exists made,
     native_calls (final_process
        (AllocateEnv dm {| henv := h; pooling := Some value; native_calls := calls |})) =
     (calls ++ made)%list
     /\ existsb sets_pooling made = is_Py_True value)
  /\ (is_Py_True value = true <-> value = Py_True)
  /\ truth_value (PyLong 1) = Some true
  /\ is_Py_True (PyLong 1) = false.
Proof.
  split; [| split; [apply is_Py_True_iff | split; reflexivity]].
  unfold AllocateEnv. cbn [pooling].
  destruct (dm_SQLAllocHandle dm SQL_HANDLE_ENV SQL_NULL_HANDLE) as [ret handle] eqn:Halloc.
  destruct (is_Py_True value); cbn [andb].
  - destruct (SQL_SUCCEEDED (dm_SQLSetEnvAttr dm SQL_NULL_HANDLE
                SQL_ATTR_CONNECTION_POOLING SQL_CP_ONE_PER_HENV)); cbn [negb].
    + destruct (SQL_SUCCEEDED ret); cbn [negb].
      * destruct (SQL_SUCCEEDED (dm_SQLSetEnvAttr dm handle SQL_ATTR_ODBC_VERSION SQL_OV_ODBC3));
          cbn [negb final_process call set_henv native_calls henv pooling];
          rewrite <- !app_assoc; eexists; split; reflexivity.
      * cbn [final_process call set_henv native_calls henv pooling].
        rewrite <- !app_assoc. eexists; split; reflexivity.
    + cbn [final_process call native_calls]. eexists; split; reflexivity.
  - destruct (SQL_SUCCEEDED ret); cbn [negb].
    + destruct (SQL_SUCCEEDED (dm_SQLSetEnvAttr dm handle SQL_ATTR_ODBC_VERSION SQL_OV_ODBC3));
        cbn [negb final_process call set_henv native_calls henv pooling];
        rewrite <- !app_assoc; eexists; split; reflexivity.
    + cbn [final_process call set_henv native_calls henv pooling].
      eexists; split; reflexivity.
Qed.

(** ** C3: a null group separator *)

(** C3 (amended).  When the host locale reports a one-character group
    separator that is the null character, the group separator becomes [.]
    if the resolved decimal point is [,], and [,] for every other decimal
    point; so a decimal point [.] gives [,] and a decimal point [,] gives
    [.]. *)
Theorem init_locale_info_null_separator (ldict : PyDict PyObject) (g : LocaleInfo) :
  one_character (PyDict_GetItemString ldict "thousands_sep") = Some zero ->
  chGroupSeparator (init_locale_info (Localeconv ldict) g) =
    opposite_separator (chDecimal (init_locale_info (Localeconv ldict) g))
  /\ (chDecimal (init_locale_info (Localeconv ldict) g) = "."%char ->
      chGroupSeparator (init_locale_info (Localeconv ldict) g) = ","%char)
  /\ (chDecimal (init_locale_info (Localeconv ldict) g) = ","%char ->
      chGroupSeparator (init_locale_info (Localeconv ldict) g) = "."%char).
Proof.
  intros Hsep.
  assert (Hmain : chGroupSeparator (init_locale_info (Localeconv ldict) g) =
                  opposite_separator (chDecimal (init_locale_info (Localeconv ldict) g))).
  { unfold init_locale_info. rewrite Hsep.
    change (Ascii.eqb zero zero) with true. cbn iota.
    destruct (one_character (PyDict_GetItemString ldict "currency_symbol"));
      destruct (one_character (PyDict_GetItemString ldict "decimal_point"));
      reflexivity. }
  split; [exact Hmain |].
  split; intros Hdec; rewrite Hmain, Hdec; reflexivity.
Qed.

Lemma init_locale_info_null_separator_witness :
  chGroupSeparator
    (init_locale_info
       (Localeconv [("decimal_point", PyUnicode ",");
                    ("thousands_sep", PyUnicode (String zero EmptyString))])
       compiled_in_locale) = "."%char.
Proof.
  apply (init_locale_info_null_separator
           [("decimal_point", PyUnicode ",");
            ("thousands_sep", PyUnicode (String zero EmptyString))]
           compiled_in_locale).
  - reflexivity.
  - reflexivity.
Defined.

(** C3 as claimed fails for a decimal point that is neither [.] nor [,]:
    the code picks [,], the claim says [.]. *)
Lemma init_locale_info_other_decimal_point :
  chDecimal (init_locale_info slash_locale compiled_in_locale) = "/"%char
  /\ chGroupSeparator (init_locale_info slash_locale compiled_in_locale) = ","%char
  /\ claimed_group_separator (chDecimal (init_locale_info slash_locale compiled_in_locale))
     = "."%char.
Proof.
  repeat split; reflexivity.
Qed.

(** ** C6: enumerating the data sources *)






(** ** C7: the registered taxonomy *)

(** A pass of [CreateExceptions] that succeeds met no failure. *)
Lemma create_exceptions_success failure infos : forall r r',
  create_exceptions failure infos r = (true, r') ->
  Forall (fun info => failure (ppexc info) = None) infos.
Proof.
  induction infos as [| info rest IH]; intros r r' Hrun.
  - constructor.
  - cbn [create_exceptions] in Hrun. unfold create_exception in Hrun.
    destruct (failure (ppexc info)) as [[| |] |] eqn:Hfail; try discriminate Hrun.
    destruct (split_last_dot (szFullName info)) as [[module_name class_name] |];
      [| discriminate Hrun].
    constructor; [exact Hfail |]. exact (IH _ _ Hrun).
Qed.

(** Without a failure, a pass does what a pass in a working host does. *)
Lemma create_exceptions_working failure infos :
  Forall (fun info => failure (ppexc info) = None) infos ->
  forall r, create_exceptions failure infos r = create_exceptions (fun _ => None) infos r.
Proof.
  induction 1 as [| info rest Hinfo _ IH]; intros r.
  - reflexivity.
  - cbn [create_exceptions]. unfold create_exception. rewrite Hinfo.
    destruct (split_last_dot (szFullName info)) as [[module_name class_name] |];
      [apply IH | reflexivity].
Qed.

(** C7.  After a start-up that succeeds, the module holds exactly ten
    classes; each derives from the parent the taxonomy gives it ([Error] and
    [Warning] from the interpreter's [Exception], [InterfaceError] and
    [DatabaseError] from [Error], the six others from [DatabaseError]), so no
    class is more than two levels below [Error]; [DataError] is a
    [DatabaseError] and an [Error], and [Warning] is no [Error] nor [Error] a
    [Warning]. *)
Theorem PyInit_pyodbc_taxonomy (host : InitHost) :
  fst (PyInit_pyodbc host) = true ->
  List.length (heap (registry (snd (PyInit_pyodbc host)))) = 10%nat
  /\ map fst (namespace (registry (snd (PyInit_pyodbc host)))) =
     map szName aExcInfos
  /\ (forall n, parent_of (registry (snd (PyInit_pyodbc host))) n =
                Some (specified_parent n))
  /\ (forall n, exists d, depth (registry (snd (PyInit_pyodbc host))) n = Some d
                          /\ (d <= 2)%nat)
  /\ is_a (registry (snd (PyInit_pyodbc host))) DataError DatabaseError = true
  /\ is_a (registry (snd (PyInit_pyodbc host))) DataError Error = true
  /\ is_a (registry (snd (PyInit_pyodbc host))) Warning Error = false
  /\ is_a (registry (snd (PyInit_pyodbc host))) Error Warning = false.
Proof.
  unfold PyInit_pyodbc.
  destruct (sqlwchar_size_ok host); [| discriminate].
  destruct (types_ready host); [| discriminate].
  destruct (import_types_ok host); [| discriminate].
  cbn [negb]. unfold CreateExceptions.
  destruct (create_exceptions (exc_failure host) aExcInfos (ErrorInit empty_registry))
    as [created r1] eqn:Hrun.
  destruct created; [| discriminate].
  cbn [negb].
  destruct (error_after_constants host); [discriminate |].
  intros _. cbn [fst snd registry].
  pose proof (create_exceptions_success _ _ _ _ Hrun) as Hnone.
  rewrite (create_exceptions_working _ _ Hnone) in Hrun.
  assert (Hr1 : r1 = snd (create_exceptions (fun _ => None) aExcInfos (ErrorInit empty_registry))).
  { now rewrite Hrun. }
  subst r1.
  split; [vm_compute; reflexivity |].
  split; [vm_compute; reflexivity |].
  split; [intros n; destruct n; vm_compute; reflexivity |].
  split.
  - intros n. destruct n; eexists; (split; [vm_compute; reflexivity | lia]).
  - repeat split; vm_compute; reflexivity.
Qed.

Lemma PyInit_pyodbc_taxonomy_witness :
  is_a (registry (snd (PyInit_pyodbc working_host))) DataError Error = true
  /\ is_a (registry (snd (PyInit_pyodbc working_host))) Warning Error = false.
Proof.
  assert (Hstart : fst (PyInit_pyodbc working_host) = true) by (vm_compute; reflexivity).
  pose proof (PyInit_pyodbc_taxonomy working_host Hstart) as H.
  split; apply H.
Defined.

(** ** C4: a class that cannot be created *)

(** C4 (the code at the failing input).  When the third class cannot be
    created, [PyInit_pyodbc] returns null and [ErrorCleanup] has not run: the two classes made before are still
    pointed to by their globals, still hold the module's own reference
    besides the one of the module object, and are still registered under
    their names.  [ErrorCleanup] would have given the module's own
    references back. *)
Lemma PyInit_pyodbc_third_class_fails :
  fst (PyInit_pyodbc third_class_fails) = false
  /\ map (exc_global (registry (snd (PyInit_pyodbc third_class_fails)))) exc_globals =
     [Some 0%nat; Some 1%nat; None; None; None; None; None; None; None; None]
  /\ map ob_refcnt (heap (registry (snd (PyInit_pyodbc third_class_fails)))) = [2%nat; 2%nat]
  /\ namespace (registry (snd (PyInit_pyodbc third_class_fails))) =
     [("Error", 0%nat); ("Warning", 1%nat)]
  /\ map ob_refcnt
       (heap (ErrorCleanup (registry (snd (PyInit_pyodbc third_class_fails))))) =
     [1%nat; 1%nat].
Proof.
  repeat split; vm_compute; reflexivity.
Qed.

(** ** The environment handle in one thread *)

(** Once a call has left a handle in [henv], a later call finds it and makes
    no native call. *)
Lemma ensure_environment_once (dm : DriverManager) (p p1 : Process) :
  ensure_environment dm p = Returns tt p1 ->
  henv p1 <> SQL_NULL_HANDLE ->
  ensure_environment dm p1 = Returns tt p1.
Proof.
  intros _ Hhandle. unfold ensure_environment.
  apply Z.eqb_neq in Hhandle. now rewrite Hhandle.
Qed.

(** * Further properties of the code *)

(** ** [mod_connect]: rejections *)

(** X1.  Argument errors come before anything else: with two or more
    positional arguments, or with one that is no string, [mod_connect]
    returns null with its [TypeError] whatever the keywords are, and leaves
    the process as it was. *)
Theorem mod_connect_argument_errors (dm : DriverManager) (kwargs : PyDict PyObject)
    (p : Process) :
  (forall arg0 arg1 more,
      mod_connect dm (arg0 :: arg1 :: more) kwargs p =
      Returns (NULL (Raised PyExc_TypeError
                       "function takes at most 1 non-keyword argument")) p)
  /\ (forall arg0,
      PyUnicode_Check arg0 = false ->
      mod_connect dm [arg0] kwargs p =
      Returns (NULL (Raised PyExc_TypeError "argument 1 must be a string")) p).
Proof.
  split.
  - intros arg0 arg1 more. unfold mod_connect.
    assert (Hsize : (1 <? Z.of_nat (List.length (arg0 :: arg1 :: more))) = true).
    { apply Z.ltb_lt. cbn [List.length]. lia. }
    now rewrite Hsize.
  - intros arg0 Hcheck. unfold mod_connect.
    change (1 <? Z.of_nat (List.length [arg0])) with false. cbn iota.
    destruct arg0; try reflexivity. discriminate Hcheck.
Qed.

(** The loop stops at the first keyword it rejects. *)
Lemma connect_keywords_stops (before after : PyDict PyObject) (key : string)
    (value : PyObject) (l l1 : ConnectLocals) (e : PyErr) :
  connect_keywords before l = Continue l1 ->
  connect_keyword l1 key value = Return0 e ->
  connect_keywords (before ++ (key, value) :: after)%list l = Return0 e.
Proof.
  intros Hrun Hstep. rewrite connect_keywords_app, Hrun.
  cbn [connect_keywords]. now rewrite Hstep.
Qed.

(** X2.  A keyword that is no control keyword and whose value is no string
    is rejected with a [TypeError] that names it, when the keywords before
    it were accepted; the keywords after it are not looked at and the
    process is left as it was. *)
Theorem mod_connect_value_not_string (dm : DriverManager) (p : Process)
    (positional : option string) (before after : PyDict PyObject)
    (key : string) (value : PyObject) :
  (forall k v, In (k, v) before -> is_control k = false -> PyUnicode_Check v = true) ->
  (forall v, In ("autocommit", v) before -> truth_value v <> None) ->
  (forall v, In ("timeout", v) before -> long_value v <> None) ->
  is_control key = false ->
  PyUnicode_Check value = false ->
  mod_connect dm (positional_args positional) (before ++ (key, value) :: after)%list p =
  Returns (NULL (Raised PyExc_TypeError
                   ("The value for keyword '" ++ key ++ "' is not a string'"))) p.
Proof.
  intros Hstr Hac Hto Hkey Hvalue.
  destruct (connect_keywords_runs before Hstr Hac Hto (initial_locals positional) eq_refl)
    as [l1 [Hrun _]].
  rewrite mod_connect_positional.
  rewrite (connect_keywords_stops before after key value _ l1 (not_a_string key) Hrun).
  - reflexivity.
  - unfold connect_keyword. unfold is_control in Hkey.
    apply orb_false_iff in Hkey. destruct Hkey as [-> ->].
    destruct value; try reflexivity. discriminate Hvalue.
Qed.

Lemma mod_connect_value_not_string_witness :
  mod_connect sample_driver_manager (positional_args (Some "DSN=x"))
    ([("user", PyUnicode "alice")] ++ ("port", PyLong 5432) :: [("timeout", Py_None)])%list
    cold_process =
  Returns (NULL (Raised PyExc_TypeError "The value for keyword 'port' is not a string'"))
    cold_process.
Proof.
  apply (mod_connect_value_not_string sample_driver_manager cold_process (Some "DSN=x")
           [("user", PyUnicode "alice")] [("timeout", Py_None)] "port" (PyLong 5432)).
  - simpl. intros k v [H | []] _. inversion H; subst. reflexivity.
  - simpl. intros v [H | []]. inversion H.
  - simpl. intros v [H | []]. inversion H.
  - reflexivity.
  - reflexivity.
Defined.

(** X3.  A [timeout] value that does not convert to a C [long] (no integer,
    or an integer out of range) makes [mod_connect] return null with the
    exception of the conversion, when the keywords before it were accepted;
    the process is left as it was. *)
Theorem mod_connect_timeout_conversion_fails (dm : DriverManager) (p : Process)
    (positional : option string) (before after : PyDict PyObject) (value : PyObject) :
  (forall k v, In (k, v) before -> is_control k = false -> PyUnicode_Check v = true) ->
  (forall v, In ("autocommit", v) before -> truth_value v <> None) ->
  (forall v, In ("timeout", v) before -> long_value v <> None) ->
  long_value value = None ->
  mod_connect dm (positional_args positional)
    (before ++ ("timeout", value) :: after)%list p =
  Returns (NULL (RaisedBy "PyLong_AsLong" value)) p.
Proof.
  intros Hstr Hac Hto Hvalue.
  destruct (connect_keywords_runs before Hstr Hac Hto (initial_locals positional) eq_refl)
    as [l1 [Hrun _]].
  rewrite mod_connect_positional.
  rewrite (connect_keywords_stops before after "timeout" value _ l1
             (RaisedBy "PyLong_AsLong" value) Hrun).
  - reflexivity.
  - unfold connect_keyword.
    change (String.eqb "timeout" "autocommit") with false.
    change (String.eqb "timeout" "timeout") with true. cbn iota.
    unfold PyLong_AsLong. now rewrite Hvalue.
Qed.

Lemma mod_connect_timeout_conversion_fails_witness :
  mod_connect sample_driver_manager (positional_args (Some "DSN=x"))
    ([("autocommit", Py_True)] ++ ("timeout", PyLong (2 ^ 63)) :: [])%list
    cold_process =
  Returns (NULL (RaisedBy "PyLong_AsLong" (PyLong (2 ^ 63)))) cold_process.
Proof.
  apply (mod_connect_timeout_conversion_fails sample_driver_manager cold_process
           (Some "DSN=x") [("autocommit", Py_True)] [] (PyLong (2 ^ 63))).
  - simpl. intros k v [H | []] Hk. inversion H; subst. discriminate Hk.
  - simpl. intros v [H | []]. inversion H; subst. discriminate.
  - simpl. intros v [H | []]. inversion H.
  - reflexivity.
Defined.

(** X4.  Every null that [mod_connect] returns itself (any return other
    than the value of the final call to [Connection_New]) comes before
    [AllocateEnv]: the process is then as it was, with no native call made
    and the environment handle untouched. *)
Theorem mod_connect_null_leaves_process (dm : DriverManager) (args : list PyObject)
    (kwargs : PyDict PyObject) (p p' : Process) (e : PyErr) :
  mod_connect dm args kwargs p = Returns (NULL e) p' ->
  p' = p.
Proof.
  unfold mod_connect.
  destruct (1 <? Z.of_nat (List.length args)).
  - intros H. now injection H.
  - assert (Hstart : forall cs,
      match connect_keywords kwargs
              {| cstring := cs; fAutoCommit := 0; timeout := 0; err := None |} with
      | Return0 e0 => Returns (NULL e0) p
      | Continue l => connect_finish dm l p
      end = Returns (NULL e) p' -> p' = p).
    { intros cs.
      destruct (connect_keywords kwargs _) as [l | e0].
      - unfold connect_finish.
        destruct (Unicode_Size (cstring l) =? 0).
        + intros H. now injection H.
        + destruct (ensure_environment dm p); discriminate.
      - intros H. now injection H. }
    destruct args as [| arg0 more].
    + apply Hstart.
    + destruct arg0; try (intros H; now injection H). apply Hstart.
Qed.

Lemma mod_connect_null_leaves_process_witness :
  exists e p',
    mod_connect sample_driver_manager [] [("autocommit", Py_True)] cold_process =
    Returns (NULL e) p'
    /\ p' = cold_process.
Proof.
  exists (Raised PyExc_TypeError "no connection information was passed"), cold_process.
  split; [reflexivity |].
  apply (mod_connect_null_leaves_process sample_driver_manager []
           [("autocommit", Py_True)] cold_process cold_process
           (Raised PyExc_TypeError "no connection information was passed")).
  reflexivity.
Defined.

(** X5.  Once the environment handle exists, [mod_connect] cannot stop in
    [Py_FatalError] and makes no native call of its own: for any arguments
    it either returns null itself or reaches the call to [Connection_New],
    and up to that point the process is as it was. *)
Theorem mod_connect_allocated (dm : DriverManager) (args : list PyObject)
    (kwargs : PyDict PyObject) (p : Process) :
  henv p <> SQL_NULL_HANDLE ->
  exists r, mod_connect dm args kwargs p = Returns r p.
Proof.
  intros Hhandle.
  assert (Henv : ensure_environment dm p = Returns tt p).
  { unfold ensure_environment. apply Z.eqb_neq in Hhandle. now rewrite Hhandle. }
  unfold mod_connect.
  destruct (1 <? Z.of_nat (List.length args)); [eexists; reflexivity |].
  assert (Hstart : forall cs, exists r,
      match connect_keywords kwargs
              {| cstring := cs; fAutoCommit := 0; timeout := 0; err := None |} with
      | Return0 e0 => Returns (NULL e0) p
      | Continue l => connect_finish dm l p
      end = Returns r p).
  { intros cs.
    destruct (connect_keywords kwargs _) as [l | e0]; [| eexists; reflexivity].
    unfold connect_finish. rewrite Henv.
    destruct (Unicode_Size (cstring l) =? 0); eexists; reflexivity. }
  destruct args as [| arg0 more].
  - apply Hstart.
  - destruct arg0; try (eexists; reflexivity). apply Hstart.
Qed.

Lemma mod_connect_allocated_witness :
  exists r, mod_connect sample_driver_manager [PyUnicode "DSN=x"] [] allocated_process =
            Returns r allocated_process.
Proof.
  apply (mod_connect_allocated sample_driver_manager [PyUnicode "DSN=x"] []
           allocated_process).
  discriminate.
Defined.

Lemma join_onto_not_empty (fragments : list string) : forall cs,
  cs <> "" -> join_onto cs fragments <> "".
Proof.
  induction fragments as [| f rest IH]; intros cs Hcs.
  - exact Hcs.
  - unfold join_onto in *. cbn [fold_left]. apply IH.
    apply String.eqb_neq in Hcs. rewrite Hcs.
    intros E. apply append_eq_empty in E. destruct E as [E _].
    apply String.eqb_neq in Hcs. contradiction.
Qed.

(** With at least one keyword the assembled string is not empty. *)
Lemma assembled_not_empty (positional : option string) (kv : string * string)
    (rest : list (string * string)) :
  assembled_connection_string positional (kv :: rest) <> "".
Proof.
  rewrite <- join_onto_assembled. unfold join_onto. cbn [map fold_left].
  apply join_onto_not_empty.
  destruct (String.eqb (cstring (initial_locals positional)) "").
  - apply fragment_not_empty.
  - intros E. apply append_eq_empty in E. destruct E as [_ E]. discriminate E.
Qed.

(** A call with connection-string keywords only, at least one of them. *)
Lemma mod_connect_strings (dm : DriverManager) (p p' : Process)
    (positional : option string) (kv : string * string) (rest : list (string * string)) :
  Forall (fun kv => is_control (fst kv) = false) (kv :: rest) ->
  ensure_environment dm p = Returns tt p' ->
  mod_connect dm (positional_args positional) (string_keywords (kv :: rest)) p =
  Returns (Connection_New (assembled_connection_string positional (kv :: rest))
             false 0 None) p'.
Proof.
  intros Hkeys Henv.
  rewrite mod_connect_positional, (connect_keywords_strings (kv :: rest) Hkeys).
  unfold connect_finish. cbn [cstring fAutoCommit timeout err].
  rewrite join_onto_assembled, Unicode_Size_zero.
  pose proof (assembled_not_empty positional kv rest) as Hfull.
  apply String.eqb_neq in Hfull.
  rewrite Hfull, Henv, indicator_after_environment_clear. reflexivity.
Qed.

(** X6.  Values are appended as they are, with no quoting.  A keyword whose
    value contains [;] followed by the text of another fragment hands to
    [Connection_New] the positional string and the fragments [key1=value1],
    [key2=value2], ... joined with [;]: the very string that the two
    keywords given one after the other hand to it. *)
Theorem mod_connect_no_quoting (dm : DriverManager) (p p' : Process)
    (positional : option string) (key1 value1 key2 value2 : string)
    (rest : list (string * string)) :
  is_control key1 = false ->
  is_control key2 = false ->
  Forall (fun kv => is_control (fst kv) = false) rest ->
  ensure_environment dm p = Returns tt p' ->
  mod_connect dm (positional_args positional)
    (string_keywords ((key1, value1 ++ ";" ++ fragment (key2, value2)) :: rest)) p =
  Returns (Connection_New
             (String.concat ";"
                (match positional with
                 | Some s => if String.eqb s "" then [] else [s]
                 | None => []
                 end ++
                 (remapped key1 ++ "=" ++ value1)
                   :: (remapped key2 ++ "=" ++ value2) :: map fragment rest))
             false 0 None) p'
  /\ mod_connect dm (positional_args positional)
       (string_keywords ((key1, value1) :: (key2, value2) :: rest)) p =
     Returns (Connection_New
                (String.concat ";"
                   (match positional with
                    | Some s => if String.eqb s "" then [] else [s]
                    | None => []
                    end ++
                    (remapped key1 ++ "=" ++ value1)
                      :: (remapped key2 ++ "=" ++ value2) :: map fragment rest))
                false 0 None) p'.
Proof.
  intros Hkey1 Hkey2 Hrest Henv.
  assert (Hjoin :
    assembled_connection_string positional
      ((key1, value1 ++ ";" ++ fragment (key2, value2)) :: rest) =
    assembled_connection_string positional ((key1, value1) :: (key2, value2) :: rest)).
  { rewrite <- !join_onto_assembled.
    generalize (cstring (initial_locals positional)). intros cs.
    unfold join_onto. cbn [map fold_left]. f_equal.
    assert (Hfirst : String.eqb
              (if String.eqb cs "" then fragment (key1, value1)
               else cs ++ ";" ++ fragment (key1, value1)) "" = false).
    { apply String.eqb_neq. destruct (String.eqb cs "").
      - apply fragment_not_empty.
      - intros E. apply append_eq_empty in E. destruct E as [_ E]. discriminate E. }
    rewrite Hfirst.
    destruct (String.eqb cs ""); unfold fragment; cbn [fst snd];
      rewrite ?append_assoc; reflexivity. }
  change (String.concat ";"
            (match positional with
             | Some s => if String.eqb s "" then [] else [s]
             | None => []
             end ++
             (remapped key1 ++ "=" ++ value1)
               :: (remapped key2 ++ "=" ++ value2) :: map fragment rest))
    with (assembled_connection_string positional ((key1, value1) :: (key2, value2) :: rest)).
  split.
  - rewrite <- Hjoin. apply mod_connect_strings; [| exact Henv].
    repeat constructor; assumption.
  - apply mod_connect_strings; [| exact Henv].
    repeat constructor; assumption.
Qed.

Lemma mod_connect_no_quoting_witness :
  mod_connect sample_driver_manager (positional_args (Some "DSN=x"))
    (string_keywords [("driver", "x" ++ ";" ++ fragment ("password", "secret"))])
    cold_process =
  Returns (Connection_New "DSN=x;driver=x;pwd=secret" false 0 None) allocated_process
  /\ mod_connect sample_driver_manager (positional_args (Some "DSN=x"))
       (string_keywords [("driver", "x"); ("password", "secret")]) cold_process =
     Returns (Connection_New "DSN=x;driver=x;pwd=secret" false 0 None) allocated_process.
Proof.
  apply (mod_connect_no_quoting sample_driver_manager cold_process allocated_process
           (Some "DSN=x") "driver" "x" "password" "secret" []).
  - reflexivity.
  - reflexivity.
  - constructor.
  - reflexivity.
Defined.

(** ** [AllocateEnv] *)

(** X7.  [AllocateEnv] returns only when every native call it made has
    succeeded.  It then has set the pooling attribute (if [pooling] is
    [Py_True]) before allocating the handle, has set the ODBC version on the
    handle it was given, and has left that handle in [henv]; nothing else
    was called and the [pooling] attribute is as it was. *)
Theorem AllocateEnv_returns (dm : DriverManager) (p p' : Process) :
  AllocateEnv dm p = Returns tt p' ->
  exists value,
    pooling p = Some value
    /\ (is_Py_True value = true ->
        SQL_SUCCEEDED (dm_SQLSetEnvAttr dm SQL_NULL_HANDLE
                         SQL_ATTR_CONNECTION_POOLING SQL_CP_ONE_PER_HENV) = true)
    /\ SQL_SUCCEEDED (fst (dm_SQLAllocHandle dm SQL_HANDLE_ENV SQL_NULL_HANDLE)) = true
    /\ SQL_SUCCEEDED (dm_SQLSetEnvAttr dm (henv p') SQL_ATTR_ODBC_VERSION SQL_OV_ODBC3) = true
    /\ henv p' = snd (dm_SQLAllocHandle dm SQL_HANDLE_ENV SQL_NULL_HANDLE)
    /\ pooling p' = pooling p
    /\ native_calls p' =
       (native_calls p ++ allocation_calls (is_Py_True value) (henv p'))%list.
Proof.
  unfold AllocateEnv.
  destruct (pooling p) as [value |] eqn:Hpool; [| discriminate].
  destruct (dm_SQLAllocHandle dm SQL_HANDLE_ENV SQL_NULL_HANDLE) as [ret h].
  intros Hrun. exists value. split; [reflexivity |].
  destruct (is_Py_True value); cbn [andb] in Hrun.
  - destruct (SQL_SUCCEEDED (dm_SQLSetEnvAttr dm SQL_NULL_HANDLE
                SQL_ATTR_CONNECTION_POOLING SQL_CP_ONE_PER_HENV)) eqn:Hset;
      cbn [negb] in Hrun; [| discriminate Hrun].
    destruct (SQL_SUCCEEDED ret) eqn:Hret; cbn [negb] in Hrun; [| discriminate Hrun].
    destruct (SQL_SUCCEEDED (dm_SQLSetEnvAttr dm h SQL_ATTR_ODBC_VERSION SQL_OV_ODBC3))
      eqn:Hversion; cbn [negb] in Hrun; [| discriminate Hrun].
    injection Hrun as <-.
    cbn [call set_henv henv pooling native_calls fst snd allocation_calls].
    rewrite <- !app_assoc. repeat split; try assumption; reflexivity.
  - destruct (SQL_SUCCEEDED ret) eqn:Hret; cbn [negb] in Hrun; [| discriminate Hrun].
    destruct (SQL_SUCCEEDED (dm_SQLSetEnvAttr dm h SQL_ATTR_ODBC_VERSION SQL_OV_ODBC3))
      eqn:Hversion; cbn [negb] in Hrun; [| discriminate Hrun].
    injection Hrun as <-.
    cbn [call set_henv henv pooling native_calls fst snd allocation_calls].
    rewrite <- !app_assoc. repeat split; try assumption; try reflexivity. discriminate.
Qed.

Lemma AllocateEnv_returns_witness :
  exists value,
    pooling cold_process = Some value
    /\ (is_Py_True value = true ->
        SQL_SUCCEEDED (dm_SQLSetEnvAttr sample_driver_manager SQL_NULL_HANDLE
                         SQL_ATTR_CONNECTION_POOLING SQL_CP_ONE_PER_HENV) = true)
    /\ SQL_SUCCEEDED (fst (dm_SQLAllocHandle sample_driver_manager
                             SQL_HANDLE_ENV SQL_NULL_HANDLE)) = true
    /\ SQL_SUCCEEDED (dm_SQLSetEnvAttr sample_driver_manager (henv allocated_process)
                        SQL_ATTR_ODBC_VERSION SQL_OV_ODBC3) = true
    /\ henv allocated_process =
       snd (dm_SQLAllocHandle sample_driver_manager SQL_HANDLE_ENV SQL_NULL_HANDLE)
    /\ pooling allocated_process = pooling cold_process
    /\ native_calls allocated_process =
       (native_calls cold_process
        ++ allocation_calls (is_Py_True value) (henv allocated_process))%list.
Proof.
  apply (AllocateEnv_returns sample_driver_manager cold_process allocated_process).
  reflexivity.
Defined.

(** ** [init_locale_info] *)

(** X8.  Running the initializer a second time changes nothing. *)
Theorem init_locale_info_idempotent (host : HostLocale) (g : LocaleInfo) :
  init_locale_info host (init_locale_info host g) = init_locale_info host g.
Proof.
  destruct host as [| | ldict]; try reflexivity.
  unfold init_locale_info.
  destruct (one_character (PyDict_GetItemString ldict "decimal_point"));
    destruct (one_character (PyDict_GetItemString ldict "thousands_sep")) as [sep |];
    destruct (one_character (PyDict_GetItemString ldict "currency_symbol"));
    try destruct (Ascii.eqb sep zero); reflexivity.
Qed.

(** X9.  The group separator never becomes the null character: if it was
    not null before, it is not null after, whatever the host reports. *)
Theorem init_locale_info_separator_not_null (host : HostLocale) (g : LocaleInfo) :
  Ascii.eqb (chGroupSeparator g) zero = false ->
  Ascii.eqb (chGroupSeparator (init_locale_info host g)) zero = false.
Proof.
  intros Hg. destruct host as [| | ldict]; try exact Hg.
  unfold init_locale_info.
  destruct (one_character (PyDict_GetItemString ldict "decimal_point")) as [dec |];
    destruct (one_character (PyDict_GetItemString ldict "thousands_sep")) as [sep |];
    destruct (one_character (PyDict_GetItemString ldict "currency_symbol"));
    cbn [chGroupSeparator chDecimal]; try exact Hg;
    (destruct (Ascii.eqb sep zero) eqn:Hsep;
     [match goal with
      | |- context [Ascii.eqb ?d ","%char] => destruct (Ascii.eqb d ","%char); reflexivity
      end
     | exact Hsep]).
Qed.

Lemma init_locale_info_separator_not_null_witness :
  Ascii.eqb (chGroupSeparator (init_locale_info slash_locale compiled_in_locale)) zero
  = false.
Proof.
  apply (init_locale_info_separator_not_null slash_locale compiled_in_locale).
  reflexivity.
Defined.

(** X10.  When the host reports a null group separator, the separator that
    is picked differs from the decimal point. *)
Theorem init_locale_info_separator_differs (ldict : PyDict PyObject) (g : LocaleInfo) :
  one_character (PyDict_GetItemString ldict "thousands_sep") = Some zero ->
  Ascii.eqb (chGroupSeparator (init_locale_info (Localeconv ldict) g))
            (chDecimal (init_locale_info (Localeconv ldict) g)) = false.
Proof.
  intros Hsep. unfold init_locale_info. rewrite Hsep.
  change (Ascii.eqb zero zero) with true. cbn iota.
  destruct (one_character (PyDict_GetItemString ldict "decimal_point")) as [dec |];
    destruct (one_character (PyDict_GetItemString ldict "currency_symbol"));
    cbn [chGroupSeparator chDecimal];
    match goal with
    | |- context [Ascii.eqb ?d ","%char] =>
        destruct (Ascii.eqb_spec d ","%char) as [E | E];
        [rewrite E; reflexivity
        | apply Ascii.eqb_neq; intros F; apply E; now rewrite <- F]
    end.
Qed.

Lemma init_locale_info_separator_differs_witness :
  Ascii.eqb (chGroupSeparator (init_locale_info slash_locale compiled_in_locale))
            (chDecimal (init_locale_info slash_locale compiled_in_locale)) = false.
Proof.
  apply (init_locale_info_separator_differs
           [("decimal_point", PyUnicode "/");
            ("thousands_sep", PyUnicode (String zero EmptyString))] compiled_in_locale).
  reflexivity.
Defined.

(** ** [mod_datasources] *)

Lemma PyDict_GetItemString_SetItem {V : Type} (d : PyDict V) (key name : string) (v : V) :
  PyDict_GetItemString (PyDict_SetItem d key v) name =
  if String.eqb key name then Some v else PyDict_GetItemString d name.
Proof.
  induction d as [| [k w] rest IH]; cbn [PyDict_SetItem PyDict_GetItemString].
  - reflexivity.
  - destruct (String.eqb_spec k key) as [-> | Hk]; cbn [PyDict_GetItemString].
    + destruct (String.eqb key name); reflexivity.
    + rewrite IH. destruct (String.eqb_spec k name) as [-> | _]; [| reflexivity].
      apply String.eqb_neq in Hk. rewrite String.eqb_sym in Hk. now rewrite Hk.
Qed.

Lemma PyDict_SetItem_keys {V : Type} (d : PyDict V) (key name : string) (v : V) :
  In name (map fst (PyDict_SetItem d key v)) <-> name = key \/ In name (map fst d).
Proof.
  induction d as [| [k w] rest IH]; cbn [PyDict_SetItem map fst In].
  - intuition congruence.
  - destruct (String.eqb_spec k key) as [-> | Hk]; cbn [map fst In].
    + intuition congruence.
    + rewrite IH. intuition congruence.
Qed.

Lemma PyDict_SetItem_NoDup {V : Type} (d : PyDict V) (key : string) (v : V) :
  NoDup (map fst d) -> NoDup (map fst (PyDict_SetItem d key v)).
Proof.
  induction d as [| [k w] rest IH]; cbn [PyDict_SetItem map fst]; intros Hd.
  - constructor; [intros [] | constructor].
  - inversion Hd as [| x xs Hfresh Hrest]; subst.
    destruct (String.eqb_spec k key) as [-> | Hk]; cbn [map fst].
    + now constructor.
    + constructor; [| now apply IH].
      rewrite PyDict_SetItem_keys. intros [E | Hin]; [congruence | contradiction].
Qed.

Lemma PyDict_GetItemString_snoc {V : Type} (d : PyDict V) (key name : string) (v : V) :
  PyDict_GetItemString (d ++ [(key, v)])%list name =
  match PyDict_GetItemString d name with
  | Some w => Some w
  | None => if String.eqb key name then Some v else None
  end.
Proof.
  induction d as [| [k w] rest IH]; cbn [app PyDict_GetItemString].
  - reflexivity.
  - destruct (String.eqb k name); [reflexivity | apply IH].
Qed.

(** Storing the fetched pairs one after the other keeps one entry per name,
    with the description fetched last for it. *)
Lemma store_fetched (good : list (SQLRETURN * string * string)) : forall d,
  NoDup (map fst d) ->
  NoDup (map fst (fold_left (fun d f => PyDict_SetItem d (snd (fst f)) (snd f)) good d))
  /\ forall name,
       PyDict_GetItemString
         (fold_left (fun d f => PyDict_SetItem d (snd (fst f)) (snd f)) good d) name =
       match PyDict_GetItemString (rev (fetched good)) name with
       | Some description => Some description
       | None => PyDict_GetItemString d name
       end.
Proof.
  induction good as [| [[ret szDSN] szDesc] rest IH]; intros d Hd.
  - split; [exact Hd | reflexivity].
  - cbn [fold_left fst snd].
    destruct (IH (PyDict_SetItem d szDSN szDesc) (PyDict_SetItem_NoDup d szDSN szDesc Hd))
      as [Hdup Hget].
    split; [exact Hdup |].
    intros name. rewrite Hget.
    unfold fetched. cbn [map rev fst snd]. fold (fetched rest).
    rewrite PyDict_GetItemString_snoc, PyDict_GetItemString_SetItem.
    destruct (PyDict_GetItemString (rev (fetched rest)) name); [reflexivity |].
    destruct (String.eqb szDSN name); reflexivity.
Qed.

(** The loop over fetches that succeed and then end with no more data. *)
Lemma fetch_data_sources_run (good : list (SQLRETURN * string * string)) :
  forall stop result p,
    Forall (fun f => fetch_succeeded f = true) good ->
    ends_enumeration stop ->
    fetch_data_sources (good ++ stop)%list result p =
    (SQL_NO_DATA,
     fold_left (fun d f => PyDict_SetItem d (snd (fst f)) (snd f)) good result,
     {| henv := henv p; pooling := pooling p;
        native_calls :=
          (native_calls p ++
           repeat (SQLDataSourcesW (henv p) SQL_FETCH_NEXT) (S (List.length good)))%list |}).
Proof.
  induction good as [| [[ret szDSN] szDesc] rest IH]; intros stop result p Hgood Hstop.
  - cbn [app fold_left List.length repeat].
    destruct stop as [| [[ret n] d] tail]; cbn [fetch_data_sources].
    + reflexivity.
    + cbn in Hstop. subst ret. reflexivity.
  - inversion Hgood as [| f fs Hf Hrest]; subst.
    unfold fetch_succeeded in Hf. cbn [fst] in Hf.
    cbn [app fetch_data_sources]. rewrite Hf. cbn [negb].
    rewrite (IH stop _ _ Hrest Hstop).
    cbn [call henv pooling native_calls fold_left fst snd List.length].
    rewrite <- app_assoc. reflexivity.
Qed.

(** X11.  When every fetch succeeds until the driver manager reports no more
    data, [mod_datasources] returns a dictionary that holds each fetched
    name once, with the description of the last fetch that gave that
    name. *)
Theorem mod_datasources_last_description (dm : DriverManager) (p p1 : Process)
    (good stop : list (SQLRETURN * string * string)) :
  ensure_environment dm p = Returns tt p1 ->
  dm_SQLDataSourcesW dm = (good ++ stop)%list ->
  Forall (fun f => fetch_succeeded f = true) good ->
  ends_enumeration stop ->
  exists result p2,
    mod_datasources dm p = Returns (DataSourcesDict result) p2
    /\ NoDup (map fst result)
    /\ forall name,
         PyDict_GetItemString result name =
         PyDict_GetItemString (rev (fetched good)) name.
Proof.
  intros Henv Hscript Hgood Hstop.
  unfold mod_datasources. rewrite Henv, Hscript.
  rewrite (fetch_data_sources_run good stop [] p1 Hgood Hstop).
  change (negb (SQL_NO_DATA =? SQL_NO_DATA)) with false. cbn iota.
  destruct (store_fetched good [] (NoDup_nil _)) as [Hdup Hget].
  eexists. eexists. split; [reflexivity |]. split; [exact Hdup |].
  intros name. rewrite Hget.
  destruct (PyDict_GetItemString (rev (fetched good)) name); reflexivity.
Qed.

Lemma mod_datasources_last_description_witness :
  exists result p2,
    mod_datasources repeating_driver_manager cold_process =
    Returns (DataSourcesDict result) p2
    /\ NoDup (map fst result)
    /\ forall name,
         PyDict_GetItemString result name =
         PyDict_GetItemString
           (rev (fetched [(SQL_SUCCESS, "Sales", "user data source");
                          (SQL_SUCCESS, "Sales", "system data source")])) name.
Proof.
  apply (mod_datasources_last_description repeating_driver_manager cold_process
           allocated_process
           [(SQL_SUCCESS, "Sales", "user data source");
            (SQL_SUCCESS, "Sales", "system data source")] []).
  - reflexivity.
  - reflexivity.
  - repeat constructor.
  - exact I.
Defined.

(** X12.  In that enumeration the only native calls are fetches with
    [SQL_FETCH_NEXT] on the environment handle: one for each data source
    and one more that is answered with no more data. *)
Theorem mod_datasources_fetches (dm : DriverManager) (p p1 : Process)
    (good stop : list (SQLRETURN * string * string)) :
  ensure_environment dm p = Returns tt p1 ->
  dm_SQLDataSourcesW dm = (good ++ stop)%list ->
  Forall (fun f => fetch_succeeded f = true) good ->
  ends_enumeration stop ->
  exists r,
    mod_datasources dm p =
    Returns r
      {| henv := henv p1; pooling := pooling p1;
         native_calls :=
           (native_calls p1 ++
            repeat (SQLDataSourcesW (henv p1) SQL_FETCH_NEXT) (S (List.length good)))%list |}.
Proof.
  intros Henv Hscript Hgood Hstop.
  unfold mod_datasources. rewrite Henv, Hscript.
  rewrite (fetch_data_sources_run good stop [] p1 Hgood Hstop).
  change (negb (SQL_NO_DATA =? SQL_NO_DATA)) with false. cbn iota.
  eexists. reflexivity.
Qed.

Lemma mod_datasources_fetches_witness :
  exists r,
    mod_datasources sample_driver_manager cold_process =
    Returns r
      {| henv := henv allocated_process; pooling := pooling allocated_process;
         native_calls :=
           (native_calls allocated_process ++
            repeat (SQLDataSourcesW (henv allocated_process) SQL_FETCH_NEXT) 3)%list |}.
Proof.
  apply (mod_datasources_fetches sample_driver_manager cold_process allocated_process
           [(SQL_SUCCESS, "Sales", "user data source");
            (SQL_SUCCESS_WITH_INFO, "Stock", "system data source")] []).
  - reflexivity.
  - reflexivity.
  - repeat constructor.
  - exact I.
Defined.

(** Whatever the script, the loop only adds fetches to the calls. *)
Lemma fetch_data_sources_calls script : forall result p,
  exists k,
    snd (fetch_data_sources script result p) =
    {| henv := henv p; pooling := pooling p;
       native_calls :=
         (native_calls p ++ repeat (SQLDataSourcesW (henv p) SQL_FETCH_NEXT) (S k))%list |}.
Proof.
  induction script as [| [[ret n] d] rest IH]; intros result p.
  - exists 0%nat. reflexivity.
  - cbn [fetch_data_sources].
    destruct (SQL_SUCCEEDED ret); cbn [negb].
    + destruct (IH (PyDict_SetItem result n d)
                   (call (SQLDataSourcesW (henv p) SQL_FETCH_NEXT) p)) as [k Hk].
      exists (S k). rewrite Hk. cbn [call henv pooling native_calls repeat].
      rewrite <- app_assoc. reflexivity.
    + exists 0%nat. reflexivity.
Qed.

(** X13.  Once the environment handle exists, [mod_datasources] cannot
    stop in [Py_FatalError] and never allocates a handle or sets an
    attribute: it makes one or more fetches on that handle, and then either
    returns the dictionary, the process being the one after the fetches, or
    returns the failure that [RaiseErrorFromHandle] raises for
    [SQLDataSources] with null connection and statement handles. *)
Theorem mod_datasources_allocated (dm : DriverManager) (p : Process) :
  henv p <> SQL_NULL_HANDLE ->
  exists k,
    (exists result,
        mod_datasources dm p = Returns (DataSourcesDict result) (after_fetches p k))
    \/ mod_datasources dm p =
       Returns
         (DataSourcesNULL
            (fst (RaiseErrorFromHandle dm "SQLDataSources" SQL_NULL_HANDLE SQL_NULL_HANDLE
                    (after_fetches p k))))
         (snd (RaiseErrorFromHandle dm "SQLDataSources" SQL_NULL_HANDLE SQL_NULL_HANDLE
                 (after_fetches p k))).
Proof.
  intros Hhandle.
  unfold mod_datasources, ensure_environment.
  apply Z.eqb_neq in Hhandle. rewrite Hhandle.
  destruct (fetch_data_sources_calls (dm_SQLDataSourcesW dm) [] p) as [k Hk].
  destruct (fetch_data_sources (dm_SQLDataSourcesW dm) [] p) as [[ret result] p2].
  cbn [snd] in Hk. subst p2. fold (after_fetches p k).
  exists k.
  destruct (ret =? SQL_NO_DATA); cbn [negb].
  - left. exists result. reflexivity.
  - right.
    destruct (RaiseErrorFromHandle dm "SQLDataSources" SQL_NULL_HANDLE SQL_NULL_HANDLE
                (after_fetches p k)) as [e p3].
    reflexivity.
Qed.

Lemma mod_datasources_allocated_witness :
  exists k,
    (exists result,
        mod_datasources sample_driver_manager allocated_process =
        Returns (DataSourcesDict result) (after_fetches allocated_process k))
    \/ mod_datasources sample_driver_manager allocated_process =
       Returns
         (DataSourcesNULL
            (fst (RaiseErrorFromHandle sample_driver_manager "SQLDataSources"
                    SQL_NULL_HANDLE SQL_NULL_HANDLE (after_fetches allocated_process k))))
         (snd (RaiseErrorFromHandle sample_driver_manager "SQLDataSources"
                 SQL_NULL_HANDLE SQL_NULL_HANDLE (after_fetches allocated_process k))).
Proof.
  apply (mod_datasources_allocated sample_driver_manager allocated_process).
  discriminate.
Defined.

(** ** [CreateExceptions], [ErrorCleanup] and [PyInit_pyodbc] *)

(** One turn of [CreateExceptions] takes no reference back: the classes
    made so far keep their two references and the pointers keep pointing at
    them. *)
Lemma create_exception_keeps (failure : ExcName -> option CreateFailure)
    (info : ExcInfo) (r : Registry) :
  pointers_hold 2 r /\ Forall (fun c => ob_refcnt c = 2%nat) (heap r) ->
  pointers_hold 2 (snd (create_exception failure info r))
  /\ Forall (fun c => ob_refcnt c = 2%nat) (heap (snd (create_exception failure info r))).
Proof.
  intros [Hptr Hheap]. unfold create_exception.
  destruct (failure (ppexc info)) as [[| |] |]; cbn [snd].
  - now split.
  - now split.
  - split; [| exact Hheap].
    intros n a Hn. cbn [set_global exc_global heap] in *.
    destruct (ExcName_eqb n (ppexc info)); [discriminate Hn | exact (Hptr n a Hn)].
  - destruct (split_last_dot (szFullName info)) as [[module_name class_name] |];
      cbn [snd];
      [| split; [| exact Hheap];
         intros n a Hn; cbn [set_global exc_global heap] in *;
         destruct (ExcName_eqb n (ppexc info)); [discriminate Hn | exact (Hptr n a Hn)]].
    cbn [heap exc_global]. split.
    + intros n a Hn. cbn [exc_global] in Hn. cbn [heap].
      destruct (ExcName_eqb n (ppexc info)).
      * injection Hn as <-. eexists. split.
        -- rewrite nth_error_app2, Nat.sub_diag; [reflexivity | apply Nat.le_refl].
        -- reflexivity.
      * destruct (Hptr n a Hn) as [c [Hc Hrefs]].
        exists c. split; [| exact Hrefs].
        rewrite nth_error_app1; [exact Hc |].
        apply nth_error_Some. congruence.
    + apply Forall_app. split; [exact Hheap |]. now repeat constructor.
Qed.

Lemma create_exceptions_keeps (failure : ExcName -> option CreateFailure)
    (infos : list ExcInfo) : forall r,
  pointers_hold 2 r /\ Forall (fun c => ob_refcnt c = 2%nat) (heap r) ->
  pointers_hold 2 (snd (create_exceptions failure infos r))
  /\ Forall (fun c => ob_refcnt c = 2%nat) (heap (snd (create_exceptions failure infos r))).
Proof.
  induction infos as [| info rest IH]; intros r Hr.
  - exact Hr.
  - cbn [create_exceptions].
    pose proof (create_exception_keeps failure info r Hr) as Hstep.
    destruct (create_exception failure info r) as [ok r1]. cbn [snd] in Hstep.
    destruct ok; [now apply IH | exact Hstep].
Qed.

(** X14.  When [CreateExceptions] fails, whichever class it fails at,
    [PyInit_pyodbc] returns null with nothing released: every class created
    before the failure still holds both its references, and every class
    pointer that is not null still points at such a class. *)
Theorem PyInit_pyodbc_creation_fails (host : InitHost) :
  sqlwchar_size_ok host = true ->
  types_ready host = true ->
  import_types_ok host = true ->
  fst (CreateExceptions (exc_failure host) (ErrorInit empty_registry)) = false ->
  fst (PyInit_pyodbc host) = false
  /\ pointers_hold 2 (registry (snd (PyInit_pyodbc host)))
  /\ Forall (fun c => ob_refcnt c = 2%nat) (heap (registry (snd (PyInit_pyodbc host)))).
Proof.
  intros Hsize Hready Himport Hfail.
  assert (Hkeep := create_exceptions_keeps (exc_failure host) aExcInfos
                     (ErrorInit empty_registry)).
  unfold PyInit_pyodbc. rewrite Hsize, Hready, Himport. cbn [negb].
  unfold CreateExceptions in *.
  destruct (create_exceptions (exc_failure host) aExcInfos (ErrorInit empty_registry))
    as [created r1].
  cbn [fst snd] in Hfail, Hkeep. subst created. cbn [negb fst snd registry].
  split; [reflexivity |].
  apply Hkeep. split.
  - intros n a Hn. discriminate Hn.
  - constructor.
Qed.

Lemma PyInit_pyodbc_creation_fails_witness :
  fst (PyInit_pyodbc third_class_fails) = false
  /\ pointers_hold 2 (registry (snd (PyInit_pyodbc third_class_fails)))
  /\ Forall (fun c => ob_refcnt c = 2%nat)
       (heap (registry (snd (PyInit_pyodbc third_class_fails)))).
Proof.
  apply (PyInit_pyodbc_creation_fails third_class_fails);
    vm_compute; reflexivity.
Defined.

(** X15.  When the classes are all created and an error is pending after
    the constants are added, [PyInit_pyodbc] returns null after
    [ErrorCleanup]: each of the ten classes has given back the module's own
    reference and holds one, while the ten pointers are not reset and the
    ten names stay in the module. *)
Theorem PyInit_pyodbc_late_error (host : InitHost) :
  sqlwchar_size_ok host = true ->
  types_ready host = true ->
  import_types_ok host = true ->
  fst (CreateExceptions (exc_failure host) (ErrorInit empty_registry)) = true ->
  error_after_constants host = true ->
  fst (PyInit_pyodbc host) = false
  /\ map ob_refcnt (heap (registry (snd (PyInit_pyodbc host)))) = repeat 1%nat 10
  /\ pointers_hold 1 (registry (snd (PyInit_pyodbc host)))
  /\ Forall (fun n => exists a, exc_global (registry (snd (PyInit_pyodbc host))) n = Some a)
       exc_globals
  /\ map fst (namespace (registry (snd (PyInit_pyodbc host)))) = map szName aExcInfos.
Proof.
  intros Hsize Hready Himport Hcreated Hlate.
  unfold PyInit_pyodbc. rewrite Hsize, Hready, Himport, Hlate. cbn [negb].
  unfold CreateExceptions in *.
  destruct (create_exceptions (exc_failure host) aExcInfos (ErrorInit empty_registry))
    as [created r1] eqn:Hrun.
  cbn [fst] in Hcreated. subst created. cbn [negb fst snd registry].
  pose proof (create_exceptions_success _ _ _ _ Hrun) as Hnone.
  rewrite (create_exceptions_working _ _ Hnone) in Hrun.
  assert (Hr1 : r1 = snd (create_exceptions (fun _ => None) aExcInfos
                            (ErrorInit empty_registry))).
  { now rewrite Hrun. }
  subst r1.
  split; [reflexivity |].
  split; [vm_compute; reflexivity |].
  split.
  - intros n a Hn.
    destruct n; vm_compute in Hn; injection Hn as <-;
      eexists; split; vm_compute; reflexivity.
  - split; [| vm_compute; reflexivity].
    repeat constructor; eexists; vm_compute; reflexivity.
Qed.

Lemma PyInit_pyodbc_late_error_witness :
  fst (PyInit_pyodbc late_error_host) = false
  /\ map ob_refcnt (heap (registry (snd (PyInit_pyodbc late_error_host)))) = repeat 1%nat 10
  /\ pointers_hold 1 (registry (snd (PyInit_pyodbc late_error_host)))
  /\ Forall (fun n => exists a,
               exc_global (registry (snd (PyInit_pyodbc late_error_host))) n = Some a)
       exc_globals
  /\ map fst (namespace (registry (snd (PyInit_pyodbc late_error_host)))) =
     map szName aExcInfos.
Proof.
  apply (PyInit_pyodbc_late_error late_error_host); vm_compute; reflexivity.
Defined.

(** ** [mod_drivers] *)

(** With the key opened, the loop returns the names read so far at the
    first status that is not [ERROR_SUCCESS]. *)
Lemma enumerate_drivers_run (good : list (Z * string)) :
  forall stop results,
    Forall (fun v => fst v = ERROR_SUCCESS) good ->
    match stop with [] => True | (status, _) :: _ => status <> ERROR_SUCCESS end ->
    enumerate_drivers ERROR_SUCCESS (good ++ stop)%list results =
    DriversList (results ++ map snd good)%list.
Proof.
  induction good as [| [status name] rest IH]; intros stop results Hgood Hstop.
  - cbn [app map]. rewrite app_nil_r.
    destruct stop as [| [status name] tail]; cbn [enumerate_drivers].
    + reflexivity.
    + apply Z.eqb_neq in Hstop. now rewrite Hstop.
  - inversion Hgood as [| v vs Hv Hrest]; subst. cbn [fst] in Hv. subst status.
    cbn [app enumerate_drivers map snd].
    change (negb (ERROR_SUCCESS =? ERROR_SUCCESS)) with false. cbn iota.
    rewrite (IH stop _ Hrest Hstop), <- app_assoc. reflexivity.
Qed.

(** X16.  With the registry key opened, [mod_drivers] returns the names
    read before the first status that is not [ERROR_SUCCESS], in order, and
    never fails: whatever that status is (the end of the values, a name that
    does not fit, any other error), the enumeration just ends there and the
    values after it are not read. *)
Theorem mod_drivers_stops_quietly (reg : OdbcRegistry) (good stop : list (Z * string)) :
  reg_RegOpenKeyEx reg = ERROR_SUCCESS ->
  reg_RegEnumValueW reg = (good ++ stop)%list ->
  Forall (fun v => fst v = ERROR_SUCCESS) good ->
  match stop with [] => True | (status, _) :: _ => status <> ERROR_SUCCESS end ->
  mod_drivers reg = DriversList (map snd good).
Proof.
  intros Hopen Hvalues Hgood Hstop.
  unfold mod_drivers. rewrite Hopen, Hvalues.
  change (negb (ERROR_SUCCESS =? ERROR_SUCCESS)) with false. cbn iota.
  now rewrite (enumerate_drivers_run good stop [] Hgood Hstop).
Qed.

Lemma mod_drivers_stops_quietly_witness :
  mod_drivers sample_registry = DriversList ["SQL Server"; "PostgreSQL Unicode"].
Proof.
  apply (mod_drivers_stops_quietly sample_registry
           [(ERROR_SUCCESS, "SQL Server"); (ERROR_SUCCESS, "PostgreSQL Unicode")]
           [(ERROR_MORE_DATA, ""); (ERROR_SUCCESS, "MySQL ODBC 8.0 Driver")]).
  - reflexivity.
  - reflexivity.
  - repeat constructor.
  - discriminate.
Defined.

Lemma enumerate_drivers_opened (values : list (Z * string)) : forall results,
  exists names, enumerate_drivers ERROR_SUCCESS values results = DriversList names.
Proof.
  induction values as [| [status name] rest IH]; intros results.
  - eexists. reflexivity.
  - cbn [enumerate_drivers].
    destruct (status =? ERROR_SUCCESS); cbn [negb].
    + change (negb (ERROR_SUCCESS =? ERROR_SUCCESS)) with false. cbn iota. apply IH.
    + eexists. reflexivity.
Qed.

(** X17.  The only failure of [mod_drivers] is the one of opening the
    registry key, reported with the status of [RegOpenKeyEx]; the
    "RegEnumKeyEx failed" error inside the loop is never raised. *)
Theorem mod_drivers_only_open_fails (reg : OdbcRegistry) (e : PyErr) :
  mod_drivers reg = DriversNULL e ->
  reg_RegOpenKeyEx reg <> ERROR_SUCCESS
  /\ e = Raised PyExc_RuntimeError
           ("Unable to access the driver list in the registry.  error="
            ++ format_ld (reg_RegOpenKeyEx reg)).
Proof.
  unfold mod_drivers.
  destruct (Z.eqb_spec (reg_RegOpenKeyEx reg) ERROR_SUCCESS) as [Hopen | Hopen];
    cbn [negb].
  - rewrite Hopen.
    destruct (enumerate_drivers_opened (reg_RegEnumValueW reg) []) as [names Hnames].
    rewrite Hnames. discriminate.
  - intros H. injection H as <-. now split.
Qed.

Lemma mod_drivers_only_open_fails_witness :
  exists e,
    mod_drivers {| reg_RegOpenKeyEx := 5; reg_RegEnumValueW := [] |} = DriversNULL e
    /\ e = Raised PyExc_RuntimeError
             "Unable to access the driver list in the registry.  error=5".
Proof.
  eexists. split; [reflexivity |].
  apply (mod_drivers_only_open_fails {| reg_RegOpenKeyEx := 5; reg_RegEnumValueW := [] |}).
  reflexivity.
Defined.
